(** * Voxelised Marching Cubes reconstruction: CPU reference and WGSL pipeline

    Shallow embedding of the two reconstruction engines of the repository:

    - [CPU]: the class [CPUMarchingCubes] (cpuMarchingCubes.ts):
      [buildDensityField], [interpolateVertex], [interpolateColor], [march],
      [reconstruct];
    - [GPU]: the WGSL compute shaders (wgslShaders.ts: [clearVoxelShader],
      [splatPointsShader], [normalizeDensityShader], [marchingCubesShader])
      and their host class [MeshReconstructor] (meshReconstructor.ts:
      [setPointCloud], [reconstruct]).

    Numbers.  JavaScript numbers and WGSL [f32] values are idealised as real
    numbers ([R]): rounding, NaN and signed zeros are not modelled.  The
    [Infinity] sentinels of the bounding-box loops are kept, as the type
    [bound].  WGSL [u32] / [i32] values are integers ([Z]) with the
    wrap-around and the saturating conversions written out.  A
    [Float32Array] or storage buffer is a [list]; the grid dimensions are
    natural numbers. *)

From Stdlib Require Import Reals ZArith List Lia Lra Bool Arith.
Import ListNotations.

(** ** Lookup tables (cpuMarchingCubes.ts) *)

Module Tables.

Local Open Scope Z_scope.

(** [edgeTable]: for each of the 256 cube configurations, the bit mask of
    the active edges. *)
Definition edgeTable : list Z := [
  0x0; 0x109; 0x203; 0x30a; 0x406; 0x50f; 0x605; 0x70c; 0x80c; 0x905; 0xa0f;
  0xb06; 0xc0a; 0xd03; 0xe09; 0xf00; 0x190; 0x99; 0x393; 0x29a; 0x596; 0x49f;
  0x795; 0x69c; 0x99c; 0x895; 0xb9f; 0xa96; 0xd9a; 0xc93; 0xf99; 0xe90;
  0x230; 0x339; 0x33; 0x13a; 0x636; 0x73f; 0x435; 0x53c; 0xa3c; 0xb35; 0x83f;
  0x936; 0xe3a; 0xf33; 0xc39; 0xd30; 0x3a0; 0x2a9; 0x1a3; 0xaa; 0x7a6; 0x6af;
  0x5a5; 0x4ac; 0xbac; 0xaa5; 0x9af; 0x8a6; 0xfaa; 0xea3; 0xda9; 0xca0;
  0x460; 0x569; 0x663; 0x76a; 0x66; 0x16f; 0x265; 0x36c; 0xc6c; 0xd65; 0xe6f;
  0xf66; 0x86a; 0x963; 0xa69; 0xb60; 0x5f0; 0x4f9; 0x7f3; 0x6fa; 0x1f6; 0xff;
  0x3f5; 0x2fc; 0xdfc; 0xcf5; 0xfff; 0xef6; 0x9fa; 0x8f3; 0xbf9; 0xaf0;
  0x650; 0x759; 0x453; 0x55a; 0x256; 0x35f; 0x55; 0x15c; 0xe5c; 0xf55; 0xc5f;
  0xd56; 0xa5a; 0xb53; 0x859; 0x950; 0x7c0; 0x6c9; 0x5c3; 0x4ca; 0x3c6;
  0x2cf; 0x1c5; 0xcc; 0xfcc; 0xec5; 0xdcf; 0xcc6; 0xbca; 0xac3; 0x9c9; 0x8c0;
  0x8c0; 0x9c9; 0xac3; 0xbca; 0xcc6; 0xdcf; 0xec5; 0xfcc; 0xcc; 0x1c5; 0x2cf;
  0x3c6; 0x4ca; 0x5c3; 0x6c9; 0x7c0; 0x950; 0x859; 0xb53; 0xa5a; 0xd56;
  0xc5f; 0xf55; 0xe5c; 0x15c; 0x55; 0x35f; 0x256; 0x55a; 0x453; 0x759; 0x650;
  0xaf0; 0xbf9; 0x8f3; 0x9fa; 0xef6; 0xfff; 0xcf5; 0xdfc; 0x2fc; 0x3f5; 0xff;
  0x1f6; 0x6fa; 0x7f3; 0x4f9; 0x5f0; 0xb60; 0xa69; 0x963; 0x86a; 0xf66;
  0xe6f; 0xd65; 0xc6c; 0x36c; 0x265; 0x16f; 0x66; 0x76a; 0x663; 0x569; 0x460;
  0xca0; 0xda9; 0xea3; 0xfaa; 0x8a6; 0x9af; 0xaa5; 0xbac; 0x4ac; 0x5a5;
  0x6af; 0x7a6; 0xaa; 0x1a3; 0x2a9; 0x3a0; 0xd30; 0xc39; 0xf33; 0xe3a; 0x936;
  0x83f; 0xb35; 0xa3c; 0x53c; 0x435; 0x73f; 0x636; 0x13a; 0x33; 0x339; 0x230;
  0xe90; 0xf99; 0xc93; 0xd9a; 0xa96; 0xb9f; 0x895; 0x99c; 0x69c; 0x795;
  0x49f; 0x596; 0x29a; 0x393; 0x99; 0x190; 0xf00; 0xe09; 0xd03; 0xc0a; 0xb06;
  0xa0f; 0x905; 0x80c; 0x70c; 0x605; 0x50f; 0x406; 0x30a; 0x203; 0x109; 0x0].

Definition triTable : list (list Z) := [
  [-1];
  [0; 8; 3];
  [0; 1; 9];
  [1; 8; 3; 9; 8; 1];
  [1; 2; 10];
  [0; 8; 3; 1; 2; 10];
  [9; 2; 10; 0; 2; 9];
  [2; 8; 3; 2; 10; 8; 10; 9; 8];
  [3; 11; 2];
  [0; 11; 2; 8; 11; 0];
  [1; 9; 0; 2; 3; 11];
  [1; 11; 2; 1; 9; 11; 9; 8; 11];
  [3; 10; 1; 11; 10; 3];
  [0; 10; 1; 0; 8; 10; 8; 11; 10];
  [3; 9; 0; 3; 11; 9; 11; 10; 9];
  [9; 8; 10; 10; 8; 11];
  [4; 7; 8];
  [4; 3; 0; 7; 3; 4];
  [0; 1; 9; 8; 4; 7];
  [4; 1; 9; 4; 7; 1; 7; 3; 1];
  [1; 2; 10; 8; 4; 7];
  [3; 4; 7; 3; 0; 4; 1; 2; 10];
  [9; 2; 10; 9; 0; 2; 8; 4; 7];
  [2; 10; 9; 2; 9; 7; 2; 7; 3; 7; 9; 4];
  [8; 4; 7; 3; 11; 2];
  [11; 4; 7; 11; 2; 4; 2; 0; 4];
  [9; 0; 1; 8; 4; 7; 2; 3; 11];
  [4; 7; 11; 9; 4; 11; 9; 11; 2; 9; 2; 1];
  [3; 10; 1; 3; 11; 10; 7; 8; 4];
  [1; 11; 10; 1; 4; 11; 1; 0; 4; 7; 11; 4];
  [4; 7; 8; 9; 0; 11; 9; 11; 10; 11; 0; 3];
  [4; 7; 11; 4; 11; 9; 9; 11; 10];
  [9; 5; 4];
  [9; 5; 4; 0; 8; 3];
  [0; 5; 4; 1; 5; 0];
  [8; 5; 4; 8; 3; 5; 3; 1; 5];
  [1; 2; 10; 9; 5; 4];
  [3; 0; 8; 1; 2; 10; 4; 9; 5];
  [5; 2; 10; 5; 4; 2; 4; 0; 2];
  [2; 10; 5; 3; 2; 5; 3; 5; 4; 3; 4; 8];
  [9; 5; 4; 2; 3; 11];
  [0; 11; 2; 0; 8; 11; 4; 9; 5];
  [0; 5; 4; 0; 1; 5; 2; 3; 11];
  [2; 1; 5; 2; 5; 8; 2; 8; 11; 4; 8; 5];
  [10; 3; 11; 10; 1; 3; 9; 5; 4];
  [4; 9; 5; 0; 8; 1; 8; 10; 1; 8; 11; 10];
  [5; 4; 0; 5; 0; 11; 5; 11; 10; 11; 0; 3];
  [5; 4; 8; 5; 8; 10; 10; 8; 11];
  [9; 7; 8; 5; 7; 9];
  [9; 3; 0; 9; 5; 3; 5; 7; 3];
  [0; 7; 8; 0; 1; 7; 1; 5; 7];
  [1; 5; 3; 3; 5; 7];
  [9; 7; 8; 9; 5; 7; 10; 1; 2];
  [10; 1; 2; 9; 5; 0; 5; 3; 0; 5; 7; 3];
  [8; 0; 2; 8; 2; 5; 8; 5; 7; 10; 5; 2];
  [2; 10; 5; 2; 5; 3; 3; 5; 7];
  [7; 9; 5; 7; 8; 9; 3; 11; 2];
  [9; 5; 7; 9; 7; 2; 9; 2; 0; 2; 7; 11];
  [2; 3; 11; 0; 1; 8; 1; 7; 8; 1; 5; 7];
  [11; 2; 1; 11; 1; 7; 7; 1; 5];
  [9; 5; 8; 8; 5; 7; 10; 1; 3; 10; 3; 11];
  [5; 7; 0; 5; 0; 9; 7; 11; 0; 1; 0; 10; 11; 10; 0];
  [11; 10; 0; 11; 0; 3; 10; 5; 0; 8; 0; 7; 5; 7; 0];
  [11; 10; 5; 7; 11; 5];
  [10; 6; 5];
  [0; 8; 3; 5; 10; 6];
  [9; 0; 1; 5; 10; 6];
  [1; 8; 3; 1; 9; 8; 5; 10; 6];
  [1; 6; 5; 2; 6; 1];
  [1; 6; 5; 1; 2; 6; 3; 0; 8];
  [9; 6; 5; 9; 0; 6; 0; 2; 6];
  [5; 9; 8; 5; 8; 2; 5; 2; 6; 3; 2; 8];
  [2; 3; 11; 10; 6; 5];
  [11; 0; 8; 11; 2; 0; 10; 6; 5];
  [0; 1; 9; 2; 3; 11; 5; 10; 6];
  [5; 10; 6; 1; 9; 2; 9; 11; 2; 9; 8; 11];
  [6; 3; 11; 6; 5; 3; 5; 1; 3];
  [0; 8; 11; 0; 11; 5; 0; 5; 1; 5; 11; 6];
  [3; 11; 6; 0; 3; 6; 0; 6; 5; 0; 5; 9];
  [6; 5; 9; 6; 9; 11; 11; 9; 8];
  [5; 10; 6; 4; 7; 8];
  [4; 3; 0; 4; 7; 3; 6; 5; 10];
  [1; 9; 0; 5; 10; 6; 8; 4; 7];
  [10; 6; 5; 1; 9; 7; 1; 7; 3; 7; 9; 4];
  [6; 1; 2; 6; 5; 1; 4; 7; 8];
  [1; 2; 5; 5; 2; 6; 3; 0; 4; 3; 4; 7];
  [8; 4; 7; 9; 0; 5; 0; 6; 5; 0; 2; 6];
  [7; 3; 9; 7; 9; 4; 3; 2; 9; 5; 9; 6; 2; 6; 9];
  [3; 11; 2; 7; 8; 4; 10; 6; 5];
  [5; 10; 6; 4; 7; 2; 4; 2; 0; 2; 7; 11];
  [0; 1; 9; 4; 7; 8; 2; 3; 11; 5; 10; 6];
  [9; 2; 1; 9; 11; 2; 9; 4; 11; 7; 11; 4; 5; 10; 6];
  [8; 4; 7; 3; 11; 5; 3; 5; 1; 5; 11; 6];
  [5; 1; 11; 5; 11; 6; 1; 0; 11; 7; 11; 4; 0; 4; 11];
  [0; 5; 9; 0; 6; 5; 0; 3; 6; 11; 6; 3; 8; 4; 7];
  [6; 5; 9; 6; 9; 11; 4; 7; 9; 7; 11; 9];
  [10; 4; 9; 6; 4; 10];
  [4; 10; 6; 4; 9; 10; 0; 8; 3];
  [10; 0; 1; 10; 6; 0; 6; 4; 0];
  [8; 3; 1; 8; 1; 6; 8; 6; 4; 6; 1; 10];
  [1; 4; 9; 1; 2; 4; 2; 6; 4];
  [3; 0; 8; 1; 2; 9; 2; 4; 9; 2; 6; 4];
  [0; 2; 4; 4; 2; 6];
  [8; 3; 2; 8; 2; 4; 4; 2; 6];
  [10; 4; 9; 10; 6; 4; 11; 2; 3];
  [0; 8; 2; 2; 8; 11; 4; 9; 10; 4; 10; 6];
  [3; 11; 2; 0; 1; 6; 0; 6; 4; 6; 1; 10];
  [6; 4; 1; 6; 1; 10; 4; 8; 1; 2; 1; 11; 8; 11; 1];
  [9; 6; 4; 9; 3; 6; 9; 1; 3; 11; 6; 3];
  [8; 11; 1; 8; 1; 0; 11; 6; 1; 9; 1; 4; 6; 4; 1];
  [3; 11; 6; 3; 6; 0; 0; 6; 4];
  [6; 4; 8; 11; 6; 8];
  [7; 10; 6; 7; 8; 10; 8; 9; 10];
  [0; 7; 3; 0; 10; 7; 0; 9; 10; 6; 7; 10];
  [10; 6; 7; 1; 10; 7; 1; 7; 8; 1; 8; 0];
  [10; 6; 7; 10; 7; 1; 1; 7; 3];
  [1; 2; 6; 1; 6; 8; 1; 8; 9; 8; 6; 7];
  [2; 6; 9; 2; 9; 1; 6; 7; 9; 0; 9; 3; 7; 3; 9];
  [7; 8; 0; 7; 0; 6; 6; 0; 2];
  [7; 3; 2; 6; 7; 2];
  [2; 3; 11; 10; 6; 8; 10; 8; 9; 8; 6; 7];
  [2; 0; 7; 2; 7; 11; 0; 9; 7; 6; 7; 10; 9; 10; 7];
  [1; 8; 0; 1; 7; 8; 1; 10; 7; 6; 7; 10; 2; 3; 11];
  [11; 2; 1; 11; 1; 7; 10; 6; 1; 6; 7; 1];
  [8; 9; 6; 8; 6; 7; 9; 1; 6; 11; 6; 3; 1; 3; 6];
  [0; 9; 1; 11; 6; 7];
  [7; 8; 0; 7; 0; 6; 3; 11; 0; 11; 6; 0];
  [7; 11; 6];
  [7; 6; 11];
  [3; 0; 8; 11; 7; 6];
  [0; 1; 9; 11; 7; 6];
  [8; 1; 9; 8; 3; 1; 11; 7; 6];
  [10; 1; 2; 6; 11; 7];
  [1; 2; 10; 3; 0; 8; 6; 11; 7];
  [2; 9; 0; 2; 10; 9; 6; 11; 7];
  [6; 11; 7; 2; 10; 3; 10; 8; 3; 10; 9; 8];
  [7; 2; 3; 6; 2; 7];
  [7; 0; 8; 7; 6; 0; 6; 2; 0];
  [2; 7; 6; 2; 3; 7; 0; 1; 9];
  [1; 6; 2; 1; 8; 6; 1; 9; 8; 8; 7; 6];
  [10; 7; 6; 10; 1; 7; 1; 3; 7];
  [10; 7; 6; 1; 7; 10; 1; 8; 7; 1; 0; 8];
  [0; 3; 7; 0; 7; 10; 0; 10; 9; 6; 10; 7];
  [7; 6; 10; 7; 10; 8; 8; 10; 9];
  [6; 8; 4; 11; 8; 6];
  [3; 6; 11; 3; 0; 6; 0; 4; 6];
  [8; 6; 11; 8; 4; 6; 9; 0; 1];
  [9; 4; 6; 9; 6; 3; 9; 3; 1; 11; 3; 6];
  [6; 8; 4; 6; 11; 8; 2; 10; 1];
  [1; 2; 10; 3; 0; 11; 0; 6; 11; 0; 4; 6];
  [4; 11; 8; 4; 6; 11; 0; 2; 9; 2; 10; 9];
  [10; 9; 3; 10; 3; 2; 9; 4; 3; 11; 3; 6; 4; 6; 3];
  [8; 2; 3; 8; 4; 2; 4; 6; 2];
  [0; 4; 2; 4; 6; 2];
  [1; 9; 0; 2; 3; 4; 2; 4; 6; 4; 3; 8];
  [1; 9; 4; 1; 4; 2; 2; 4; 6];
  [8; 1; 3; 8; 6; 1; 8; 4; 6; 6; 10; 1];
  [10; 1; 0; 10; 0; 6; 6; 0; 4];
  [4; 6; 3; 4; 3; 8; 6; 10; 3; 0; 3; 9; 10; 9; 3];
  [10; 9; 4; 6; 10; 4];
  [4; 9; 5; 7; 6; 11];
  [0; 8; 3; 4; 9; 5; 11; 7; 6];
  [5; 0; 1; 5; 4; 0; 7; 6; 11];
  [11; 7; 6; 8; 3; 4; 3; 5; 4; 3; 1; 5];
  [9; 5; 4; 10; 1; 2; 7; 6; 11];
  [6; 11; 7; 1; 2; 10; 0; 8; 3; 4; 9; 5];
  [7; 6; 11; 5; 4; 10; 4; 2; 10; 4; 0; 2];
  [3; 4; 8; 3; 5; 4; 3; 2; 5; 10; 5; 2; 11; 7; 6];
  [7; 2; 3; 7; 6; 2; 5; 4; 9];
  [9; 5; 4; 0; 8; 6; 0; 6; 2; 6; 8; 7];
  [3; 6; 2; 3; 7; 6; 1; 5; 0; 5; 4; 0];
  [6; 2; 8; 6; 8; 7; 2; 1; 8; 4; 8; 5; 1; 5; 8];
  [9; 5; 4; 10; 1; 6; 1; 7; 6; 1; 3; 7];
  [1; 6; 10; 1; 7; 6; 1; 0; 7; 8; 7; 0; 9; 5; 4];
  [4; 0; 10; 4; 10; 5; 0; 3; 10; 6; 10; 7; 3; 7; 10];
  [7; 6; 10; 7; 10; 8; 5; 4; 10; 4; 8; 10];
  [6; 9; 5; 6; 11; 9; 11; 8; 9];
  [3; 6; 11; 0; 6; 3; 0; 5; 6; 0; 9; 5];
  [0; 11; 8; 0; 5; 11; 0; 1; 5; 5; 6; 11];
  [6; 11; 3; 6; 3; 5; 5; 3; 1];
  [1; 2; 10; 9; 5; 11; 9; 11; 8; 11; 5; 6];
  [0; 11; 3; 0; 6; 11; 0; 9; 6; 5; 6; 9; 1; 2; 10];
  [11; 8; 5; 11; 5; 6; 8; 0; 5; 10; 5; 2; 0; 2; 5];
  [6; 11; 3; 6; 3; 5; 2; 10; 3; 10; 5; 3];
  [5; 8; 9; 5; 2; 8; 5; 6; 2; 3; 8; 2];
  [9; 5; 6; 9; 6; 0; 0; 6; 2];
  [1; 5; 8; 1; 8; 0; 5; 6; 8; 3; 8; 2; 6; 2; 8];
  [1; 5; 6; 2; 1; 6];
  [1; 3; 6; 1; 6; 10; 3; 8; 6; 5; 6; 9; 8; 9; 6];
  [10; 1; 0; 10; 0; 6; 9; 5; 0; 5; 6; 0];
  [0; 3; 8; 5; 6; 10];
  [10; 5; 6];
  [11; 5; 10; 7; 5; 11];
  [11; 5; 10; 11; 7; 5; 8; 3; 0];
  [5; 11; 7; 5; 10; 11; 1; 9; 0];
  [10; 7; 5; 10; 11; 7; 9; 8; 1; 8; 3; 1];
  [11; 1; 2; 11; 7; 1; 7; 5; 1];
  [0; 8; 3; 1; 2; 7; 1; 7; 5; 7; 2; 11];
  [9; 7; 5; 9; 2; 7; 9; 0; 2; 2; 11; 7];
  [7; 5; 2; 7; 2; 11; 5; 9; 2; 3; 2; 8; 9; 8; 2];
  [2; 5; 10; 2; 3; 5; 3; 7; 5];
  [8; 2; 0; 8; 5; 2; 8; 7; 5; 10; 2; 5];
  [9; 0; 1; 5; 10; 3; 5; 3; 7; 3; 10; 2];
  [9; 8; 2; 9; 2; 1; 8; 7; 2; 10; 2; 5; 7; 5; 2];
  [1; 3; 5; 3; 7; 5];
  [0; 8; 7; 0; 7; 1; 1; 7; 5];
  [9; 0; 3; 9; 3; 5; 5; 3; 7];
  [9; 8; 7; 5; 9; 7];
  [5; 8; 4; 5; 10; 8; 10; 11; 8];
  [5; 0; 4; 5; 11; 0; 5; 10; 11; 11; 3; 0];
  [0; 1; 9; 8; 4; 10; 8; 10; 11; 10; 4; 5];
  [10; 11; 4; 10; 4; 5; 11; 3; 4; 9; 4; 1; 3; 1; 4];
  [2; 5; 1; 2; 8; 5; 2; 11; 8; 4; 5; 8];
  [0; 4; 11; 0; 11; 3; 4; 5; 11; 2; 11; 1; 5; 1; 11];
  [0; 2; 5; 0; 5; 9; 2; 11; 5; 4; 5; 8; 11; 8; 5];
  [9; 4; 5; 2; 11; 3];
  [2; 5; 10; 3; 5; 2; 3; 4; 5; 3; 8; 4];
  [5; 10; 2; 5; 2; 4; 4; 2; 0];
  [3; 10; 2; 3; 5; 10; 3; 8; 5; 4; 5; 8; 0; 1; 9];
  [5; 10; 2; 5; 2; 4; 1; 9; 2; 9; 4; 2];
  [8; 4; 5; 8; 5; 3; 3; 5; 1];
  [0; 4; 5; 1; 0; 5];
  [8; 4; 5; 8; 5; 3; 9; 0; 5; 0; 3; 5];
  [9; 4; 5];
  [4; 11; 7; 4; 9; 11; 9; 10; 11];
  [0; 8; 3; 4; 9; 7; 9; 11; 7; 9; 10; 11];
  [1; 10; 11; 1; 11; 4; 1; 4; 0; 7; 4; 11];
  [3; 1; 4; 3; 4; 8; 1; 10; 4; 7; 4; 11; 10; 11; 4];
  [4; 11; 7; 9; 11; 4; 9; 2; 11; 9; 1; 2];
  [9; 7; 4; 9; 11; 7; 9; 1; 11; 2; 11; 1; 0; 8; 3];
  [11; 7; 4; 11; 4; 2; 2; 4; 0];
  [11; 7; 4; 11; 4; 2; 8; 3; 4; 3; 2; 4];
  [2; 9; 10; 2; 7; 9; 2; 3; 7; 7; 4; 9];
  [9; 10; 7; 9; 7; 4; 10; 2; 7; 8; 7; 0; 2; 0; 7];
  [3; 7; 10; 3; 10; 2; 7; 4; 10; 1; 10; 0; 4; 0; 10];
  [1; 10; 2; 8; 7; 4];
  [4; 9; 1; 4; 1; 7; 7; 1; 3];
  [4; 9; 1; 4; 1; 7; 0; 8; 1; 8; 7; 1];
  [4; 0; 3; 7; 4; 3];
  [4; 8; 7];
  [9; 10; 8; 10; 11; 8];
  [3; 0; 9; 3; 9; 11; 11; 9; 10];
  [0; 1; 10; 0; 10; 8; 8; 10; 11];
  [3; 1; 10; 11; 3; 10];
  [1; 2; 11; 1; 11; 9; 9; 11; 8];
  [3; 0; 9; 3; 9; 11; 1; 2; 9; 2; 11; 9];
  [0; 2; 11; 8; 0; 11];
  [3; 2; 11];
  [2; 3; 8; 2; 8; 10; 10; 8; 9];
  [9; 10; 2; 0; 9; 2];
  [2; 3; 8; 2; 8; 10; 0; 1; 8; 1; 10; 8];
  [1; 10; 2];
  [1; 3; 8; 9; 1; 8];
  [0; 9; 1];
  [0; 3; 8];
  []
].

(** [edgeVertices]: the two corners joined by each of the 12 edges. *)
Definition edgeVertices : list (nat * nat) := [
  (0, 1); (1, 2); (2, 3); (3, 0);
  (4, 5); (5, 6); (6, 7); (7, 4);
  (0, 4); (1, 5); (2, 6); (3, 7)
]%nat.

(** The part of a row that the triangle loop of [march] consumes: the
    entries before the first [-1]. *)
Fixpoint beforeSentinel (row : list Z) : list Z :=
  match row with
  | [] => []
  | e :: rest => if e =? -1 then [] else e :: beforeSentinel rest
  end.

(** Entry [e] is an edge index whose bit is set in the mask [edges]. *)
Definition activeEdge (edges e : Z) : bool :=
  (0 <=? e) && (e <=? 11) && Z.testbit edges e.

(** One row of [triTable] agrees with its edge mask and holds at most five
    triangles. *)
Definition rowConsistent (edges : Z) (row : list Z) : bool :=
  forallb (activeEdge edges) (beforeSentinel row)
  && (length (beforeSentinel row) <=? 15)%nat
  && (length (beforeSentinel row) mod 3 =? 0)%nat.

Definition tablesConsistent : bool :=
  (length edgeTable =? 256)%nat && (length triTable =? 256)%nat
  && forallb (fun p => rowConsistent (fst p) (snd p)) (combine edgeTable triTable).

End Tables.

(** ** Numbers, vectors and buffers *)

Local Open Scope R_scope.

Definition vec3 : Type := (R * R * R)%type.
Definition vec4 : Type := (R * R * R * R)%type.

(** [x < y] as a test, as in [if (x < y)]. *)
Definition Rltb (x y : R) : bool := if Rlt_dec x y then true else false.

(** The accumulators of the bounding-box loops start at [Infinity] and
    [-Infinity]; [bound] keeps these two values next to the finite ones. *)
Inductive bound : Type :=
| Fin (r : R)
| PosInf
| NegInf.

(** [Math.min(b, x)] and [Math.max(b, x)] for a finite [x]. *)
Definition bmin (b : bound) (x : R) : bound :=
  match b with
  | Fin r => Fin (Rmin r x)
  | PosInf => Fin x
  | NegInf => NegInf
  end.

Definition bmax (b : bound) (x : R) : bound :=
  match b with
  | Fin r => Fin (Rmax r x)
  | PosInf => PosInf
  | NegInf => Fin x
  end.

(** [b - p] and [b + p] for a finite [p]. *)
Definition bminus (b : bound) (p : R) : bound :=
  match b with
  | Fin r => Fin (r - p)
  | _ => b
  end.

Definition bplus (b : bound) (p : R) : bound :=
  match b with
  | Fin r => Fin (r + p)
  | _ => b
  end.

(** The real number held by a bound.  The box of an empty cloud is infinite;
    its corners are read only per splatted point and per surface cell, and
    are taken as 0 there. *)
Definition finite (b : bound) : R :=
  match b with
  | Fin r => r
  | _ => 0
  end.

Definition bound3 : Type := (bound * bound * bound)%type.

Definition finite3 (b : bound3) : vec3 :=
  let '(x, y, z) := b in (finite x, finite y, finite z).

(** [a[idx] += w] on a typed array: a write past the end is ignored. *)
Fixpoint addAt (idx : nat) (w : R) (a : list R) : list R :=
  match a, idx with
  | [], _ => []
  | x :: t, O => (x + w) :: t
  | x :: t, S i => x :: addAt i w t
  end.

(** The integers [lo, lo+1, ..., hi] of a loop [for (k = lo; k <= hi; k++)]. *)
Definition zrange (lo hi : Z) : list Z :=
  map (fun k => (lo + Z.of_nat k)%Z) (seq 0 (Z.to_nat (hi - lo + 1))).

(** The bounding-box loop shared by [CPUMarchingCubes.reconstruct] and
    [MeshReconstructor.setPointCloud]. *)
Record Box : Type := {
  minX : bound; minY : bound; minZ : bound;
  maxX : bound; maxY : bound; maxZ : bound
}.

Definition emptyBox : Box :=
  {| minX := PosInf; minY := PosInf; minZ := PosInf;
     maxX := NegInf; maxY := NegInf; maxZ := NegInf |}.

Definition boxStep (positions : list R) (b : Box) (i : nat) : Box :=
  let x := nth (i * 3) positions 0 in
  let y := nth (i * 3 + 1) positions 0 in
  let z := nth (i * 3 + 2) positions 0 in
  {| minX := bmin (minX b) x; minY := bmin (minY b) y; minZ := bmin (minZ b) z;
     maxX := bmax (maxX b) x; maxY := bmax (maxY b) y; maxZ := bmax (maxZ b) z |}.

Definition boundingBox (positions : list R) (count : nat) : Box :=
  fold_left (boxStep positions) (seq 0 count) emptyBox.

(** The result of a reconstruction ([MarchingCubesResult],
    [ReconstructResult]). *)
Module Mesh.

Record Result : Type := {
  positions : list R;
  normals : list R;
  colors : list R;
  triangleCount : nat
}.

Definition empty : Result :=
  {| positions := []; normals := []; colors := []; triangleCount := 0 |}.

End Mesh.

Import Mesh.

(** ** The sequential engine: class [CPUMarchingCubes] *)

Module CPU.

Record CPUMarchingCubes : Type := {
  gridSize : nat * nat * nat;
  isoValue : R;
  splatRadius : R;
  gridMin : bound3;
  gridMax : bound3
}.

(** The field initialisers of the class. *)
Definition initial : CPUMarchingCubes :=
  {| gridSize := (64, 64, 64)%nat;
     isoValue := 0.5;
     splatRadius := 1.5;
     gridMin := (Fin (-60), Fin (-60), Fin (-60));
     gridMax := (Fin 60, Fin 60, Fin 60) |}.

Definition setBox (s : CPUMarchingCubes) (lo hi : bound3) : CPUMarchingCubes :=
  {| gridSize := gridSize s;
     isoValue := isoValue s;
     splatRadius := splatRadius s;
     gridMin := lo;
     gridMax := hi |}.

(** The five local arrays of [buildDensityField]. *)
Record Accum : Type := {
  a_density : list R;
  a_colorR : list R;
  a_colorG : list R;
  a_colorB : list R;
  a_weights : list R
}.

Record DensityField : Type := {
  density : list R;
  colorR : list R;
  colorG : list R;
  colorB : list R
}.

(** [x < 0 || x >= gx || y < 0 || y >= gy || z < 0 || z >= gz] *)
Definition outside (g : nat * nat * nat) (x y z : Z) : bool :=
  let '(gx, gy, gz) := g in
  ((x <? 0) || (x >=? Z.of_nat gx) || (y <? 0) || (y >=? Z.of_nat gy)
   || (z <? 0) || (z >=? Z.of_nat gz))%Z.

(** [ix * gy * gz + iy * gz + iz] *)
Definition getIndex (g : nat * nat * nat) (x y z : Z) : nat :=
  let '(_, gy, gz) := g in
  Z.to_nat (x * Z.of_nat gy * Z.of_nat gz + y * Z.of_nat gz + z).

(** Grid-space distance from the point [(nx, ny, nz)] to the centre of the
    cell [(ix, iy, iz)]. *)
Definition cellDist (nx ny nz : R) (ix iy iz : Z) : R :=
  let cellCenterX := IZR ix + 0.5 in
  let cellCenterY := IZR iy + 0.5 in
  let cellCenterZ := IZR iz + 0.5 in
  sqrt ((nx - cellCenterX) ^ 2 + (ny - cellCenterY) ^ 2 + (nz - cellCenterZ) ^ 2).

(** The Gaussian weight of a cell at distance [dist]. *)
Definition gaussian (splatRadius dist : R) : R :=
  let sigma := splatRadius * 0.5 in
  exp ((- dist * dist) / (2 * sigma * sigma)).

(** The body of the innermost loop of [buildDensityField], for point [i]
    at grid position [(nx, ny, nz)] and the cell [(ix, iy, iz)]. *)
Definition splatCell (s : CPUMarchingCubes) (colors : option (list R)) (i : nat)
    (nx ny nz : R) (a : Accum) (cell : Z * Z * Z) : Accum :=
  let '(ix, iy, iz) := cell in
  if outside (gridSize s) ix iy iz then a
  else
    let dist := cellDist nx ny nz ix iy iz in
    if Rltb (splatRadius s) dist then a
    else
      let weight := gaussian (splatRadius s) dist in
      let idx := getIndex (gridSize s) ix iy iz in
      match colors with
      | Some colors =>
          {| a_density := addAt idx weight (a_density a);
             a_colorR := addAt idx (nth (i * 3) colors 0 * weight) (a_colorR a);
             a_colorG := addAt idx (nth (i * 3 + 1) colors 0 * weight) (a_colorG a);
             a_colorB := addAt idx (nth (i * 3 + 2) colors 0 * weight) (a_colorB a);
             a_weights := addAt idx weight (a_weights a) |}
      | None =>
          {| a_density := addAt idx weight (a_density a);
             a_colorR := a_colorR a;
             a_colorG := a_colorG a;
             a_colorB := a_colorB a;
             a_weights := addAt idx weight (a_weights a) |}
      end.

(** The cells visited by the three nested loops over [dx], [dy], [dz]. *)
Definition neighbourhood (cx cy cz cellRadius : Z) : list (Z * Z * Z) :=
  flat_map (fun dx =>
    flat_map (fun dy =>
      map (fun dz => (cx + dx, cy + dy, cz + dz)%Z)
          (zrange (- cellRadius) cellRadius))
      (zrange (- cellRadius) cellRadius))
    (zrange (- cellRadius) cellRadius).

(** Position of point [i] in grid coordinates. *)
Definition gridCoords (s : CPUMarchingCubes) (positions : list R) (i : nat) : vec3 :=
  let '(gx, gy, gz) := gridSize s in
  let '(minx, miny, minz) := finite3 (gridMin s) in
  let '(maxx, maxy, maxz) := finite3 (gridMax s) in
  let gridRange := (maxx - minx, maxy - miny, maxz - minz) in
  let px := nth (i * 3) positions 0 in
  let py := nth (i * 3 + 1) positions 0 in
  let pz := nth (i * 3 + 2) positions 0 in
  let '(rx, ry, rz) := gridRange in
  (((px - minx) / rx) * INR gx,
   ((py - miny) / ry) * INR gy,
   ((pz - minz) / rz) * INR gz).

(** One iteration of the loop over the points. *)
Definition splatPoint (s : CPUMarchingCubes) (positions : list R)
    (colors : option (list R)) (a : Accum) (i : nat) : Accum :=
  let cellRadius := Zceil (splatRadius s) in
  let '(nx, ny, nz) := gridCoords s positions i in
  let cx := Zfloor nx in
  let cy := Zfloor ny in
  let cz := Zfloor nz in
  fold_left (splatCell s colors i nx ny nz) (neighbourhood cx cy cz cellRadius) a.

(** The colour normalisation loop, one channel. *)
Definition normaliseChannel (weights channel : list R) : list R :=
  map (fun wc => if Rltb 0 (fst wc) then snd wc / fst wc else 0.5)
      (combine weights channel).

Definition zeros (n : nat) : list R := repeat 0 n.

Definition emptyAccum (gridCount : nat) : Accum :=
  {| a_density := zeros gridCount;
     a_colorR := zeros gridCount;
     a_colorG := zeros gridCount;
     a_colorB := zeros gridCount;
     a_weights := zeros gridCount |}.

(** The accumulators after the loop over the points. *)
Definition splatAll (s : CPUMarchingCubes) (positions : list R)
    (colors : option (list R)) (count : nat) : Accum :=
  let '(gx, gy, gz) := gridSize s in
  let gridCount := (gx * gy * gz)%nat in
  fold_left (splatPoint s positions colors) (seq 0 count) (emptyAccum gridCount).

Definition buildDensityField (s : CPUMarchingCubes) (positions : list R)
    (colors : option (list R)) (count : nat) : DensityField :=
  let a := splatAll s positions colors count in
  {| density := a_density a;
     colorR := normaliseChannel (a_weights a) (a_colorR a);
     colorG := normaliseChannel (a_weights a) (a_colorG a);
     colorB := normaliseChannel (a_weights a) (a_colorB a) |}.

(** [interpolateVertex] *)
Definition interpolateVertex (p1 p2 : vec3) (v1 v2 iso : R) : vec3 :=
  if Rltb (Rabs (iso - v1)) 0.00001 then p1
  else if Rltb (Rabs (iso - v2)) 0.00001 then p2
  else if Rltb (Rabs (v1 - v2)) 0.00001 then p1
  else
    let t := (iso - v1) / (v2 - v1) in
    let '(p1x, p1y, p1z) := p1 in
    let '(p2x, p2y, p2z) := p2 in
    (p1x + t * (p2x - p1x), p1y + t * (p2y - p1y), p1z + t * (p2z - p1z)).

(** [interpolateColor] *)
Definition interpolateColor (c1 c2 : vec3) (v1 v2 iso : R) : vec3 :=
  if Rltb (Rabs (iso - v1)) 0.00001 then c1
  else if Rltb (Rabs (iso - v2)) 0.00001 then c2
  else if Rltb (Rabs (v1 - v2)) 0.00001 then c1
  else
    let t := (iso - v1) / (v2 - v1) in
    let '(c1x, c1y, c1z) := c1 in
    let '(c2x, c2y, c2z) := c2 in
    (c1x + t * (c2x - c1x), c1y + t * (c2y - c1y), c1z + t * (c2z - c1z)).

Definition getDensity (g : nat * nat * nat) (density : list R) (x y z : Z) : R :=
  if outside g x y z then 0 else nth (getIndex g x y z) density 0.

Definition getColor (g : nat * nat * nat) (f : DensityField) (x y z : Z) : vec3 :=
  if outside g x y z then (0.5, 0.5, 0.5)
  else
    let idx := getIndex g x y z in
    (nth idx (colorR f) 0, nth idx (colorG f) 0, nth idx (colorB f) 0).

(** The eight corners of the cell [(ix, iy, iz)], in winding order. *)
Definition corners (ix iy iz : Z) : list (Z * Z * Z) :=
  [ (ix, iy, iz); (ix + 1, iy, iz); (ix + 1, iy + 1, iz); (ix, iy + 1, iz);
    (ix, iy, iz + 1); (ix + 1, iy, iz + 1); (ix + 1, iy + 1, iz + 1);
    (ix, iy + 1, iz + 1) ]%Z.

(** The eight tests [if (cubeValues[k] > iso) cubeIndex |= 2^k]. *)
Definition cubeIndexOf (cubeValues : list R) (iso : R) : Z :=
  let cubeIndex := 0%Z in
  let cubeIndex := if Rltb iso (nth 0 cubeValues 0) then Z.lor cubeIndex 1 else cubeIndex in
  let cubeIndex := if Rltb iso (nth 1 cubeValues 0) then Z.lor cubeIndex 2 else cubeIndex in
  let cubeIndex := if Rltb iso (nth 2 cubeValues 0) then Z.lor cubeIndex 4 else cubeIndex in
  let cubeIndex := if Rltb iso (nth 3 cubeValues 0) then Z.lor cubeIndex 8 else cubeIndex in
  let cubeIndex := if Rltb iso (nth 4 cubeValues 0) then Z.lor cubeIndex 16 else cubeIndex in
  let cubeIndex := if Rltb iso (nth 5 cubeValues 0) then Z.lor cubeIndex 32 else cubeIndex in
  let cubeIndex := if Rltb iso (nth 6 cubeValues 0) then Z.lor cubeIndex 64 else cubeIndex in
  let cubeIndex := if Rltb iso (nth 7 cubeValues 0) then Z.lor cubeIndex 128 else cubeIndex in
  cubeIndex.

(** The edge loop: slot [e] is written when [edges & (1 << e)] is not 0,
    and stays [undefined] ([None]) otherwise. *)
Definition edgeList (edges : Z) (cubeAttr : list vec3) (cubeValues : list R)
    (iso : R) (interpolate : vec3 -> vec3 -> R -> R -> R -> vec3)
    : list (option vec3) :=
  map (fun e =>
         if negb (Z.land edges (Z.shiftl 1 (Z.of_nat e)) =? 0)%Z then
           let '(a, b) := nth e Tables.edgeVertices (0, 0)%nat in
           Some (interpolate (nth a cubeAttr (0, 0, 0)) (nth b cubeAttr (0, 0, 0))
                             (nth a cubeValues 0) (nth b cubeValues 0) iso)
         else None)
      (seq 0 12).

(** [list[e]] for an entry [e] of a table row; [undefined] is [None]. *)
Definition slot (l : list (option vec3)) (e : option Z) : option vec3 :=
  match e with
  | Some z => if (z <? 0)%Z then None else nth (Z.to_nat z) l None
  | None => None
  end.

(** The three output arrays of [march]. *)
Record Out : Type := {
  vertices : list R;
  o_normals : list R;
  o_colors : list R
}.

Definition spread (v : vec3) : list R :=
  let '(x, y, z) := v in [x; y; z].

(** The body of the triangle loop after the sentinel test. *)
Definition emit (vertList colorList : list (option vec3)) (e0 e1 e2 : option Z)
    (o : Out) : Out :=
  match slot vertList e0, slot vertList e1, slot vertList e2,
        slot colorList e0, slot colorList e1, slot colorList e2 with
  | Some v0, Some v1, Some v2, Some c0, Some c1, Some c2 =>
      let '(v0x, v0y, v0z) := v0 in
      let '(v1x, v1y, v1z) := v1 in
      let '(v2x, v2y, v2z) := v2 in
      let edge1 := (v1x - v0x, v1y - v0y, v1z - v0z) in
      let edge2 := (v2x - v0x, v2y - v0y, v2z - v0z) in
      let '(e1x, e1y, e1z) := edge1 in
      let '(e2x, e2y, e2z) := edge2 in
      let normal := (e1y * e2z - e1z * e2y,
                     e1z * e2x - e1x * e2z,
                     e1x * e2y - e1y * e2x) in
      let '(n0, n1, n2) := normal in
      let len := sqrt (n0 ^ 2 + n1 ^ 2 + n2 ^ 2) in
      if Rltb len 0.0001 then o
      else
        let normal := (n0 / len, n1 / len, n2 / len) in
        {| vertices := vertices o ++ spread v0 ++ spread v1 ++ spread v2;
           o_normals := o_normals o ++ spread normal ++ spread normal ++ spread normal;
           o_colors := o_colors o ++ spread c0 ++ spread c1 ++ spread c2 |}
  | _, _, _, _, _, _ => o
  end.

(** The triangle loop [for (i = 0; i < triangles.length; i += 3)], leaving
    at the first [-1]. *)
Fixpoint triangleLoop (vertList colorList : list (option vec3))
    (triangles : list Z) (o : Out) : Out :=
  match triangles with
  | [] => o
  | e0 :: rest =>
      if (e0 =? -1)%Z then o
      else
        let o' := emit vertList colorList (Some e0) (hd_error rest)
                       (hd_error (tl rest)) o in
        match rest with
        | _ :: _ :: rest' => triangleLoop vertList colorList rest' o'
        | _ => o'
        end
  end.

(** The body of the three nested loops of [march]. *)
Definition marchCell (s : CPUMarchingCubes) (f : DensityField) (o : Out)
    (cell : Z * Z * Z) : Out :=
  let '(ix, iy, iz) := cell in
  let '(gx, gy, gz) := gridSize s in
  let iso := isoValue s in
  let cubeValues :=
    map (fun c => let '(x, y, z) := c in getDensity (gridSize s) (density f) x y z)
        (corners ix iy iz) in
  let cubeColors :=
    map (fun c => let '(x, y, z) := c in getColor (gridSize s) f x y z)
        (corners ix iy iz) in
  let cubeIndex := cubeIndexOf cubeValues iso in
  if (nth (Z.to_nat cubeIndex) Tables.edgeTable 0 =? 0)%Z then o
  else
    let '(minx, miny, minz) := finite3 (gridMin s) in
    let '(maxx, maxy, maxz) := finite3 (gridMax s) in
    let gridRange := (maxx - minx, maxy - miny, maxz - minz) in
    let '(rx, ry, rz) := gridRange in
    let cellSize := (rx / INR gx, ry / INR gy, rz / INR gz) in
    let '(sx, sy, sz) := cellSize in
    let basePos := (minx + IZR ix * sx, miny + IZR iy * sy, minz + IZR iz * sz) in
    let '(bx, by_, bz) := basePos in
    let cubePos :=
      [ basePos;
        (bx + sx, by_, bz);
        (bx + sx, by_ + sy, bz);
        (bx, by_ + sy, bz);
        (bx, by_, bz + sz);
        (bx + sx, by_, bz + sz);
        (bx + sx, by_ + sy, bz + sz);
        (bx, by_ + sy, bz + sz) ] in
    let edges := nth (Z.to_nat cubeIndex) Tables.edgeTable 0%Z in
    let vertList := edgeList edges cubePos cubeValues iso interpolateVertex in
    let colorList := edgeList edges cubeColors cubeValues iso interpolateColor in
    let triangles := nth (Z.to_nat cubeIndex) Tables.triTable [] in
    triangleLoop vertList colorList triangles o.

(** The cells [0 <= ix < gx - 1], [0 <= iy < gy - 1], [0 <= iz < gz - 1] in
    loop order. *)
Definition cells (g : nat * nat * nat) : list (Z * Z * Z) :=
  let '(gx, gy, gz) := g in
  flat_map (fun ix =>
    flat_map (fun iy =>
      map (fun iz => (Z.of_nat ix, Z.of_nat iy, Z.of_nat iz))
          (seq 0 (gz - 1)))
      (seq 0 (gy - 1)))
    (seq 0 (gx - 1)).

Definition emptyOut : Out := {| vertices := []; o_normals := []; o_colors := [] |}.

Definition march (s : CPUMarchingCubes) (f : DensityField) : Result :=
  let o := fold_left (marchCell s f) (cells (gridSize s)) emptyOut in
  {| positions := vertices o;
     normals := o_normals o;
     colors := o_colors o;
     triangleCount := (length (vertices o) / 9)%nat |}.

(** [reconstruct]: the object after the call, and the returned mesh. *)
Definition reconstruct (s : CPUMarchingCubes) (positions : list R)
    (colors : option (list R)) (count : nat) : CPUMarchingCubes * Result :=
  let b := boundingBox positions count in
  let padding := splatRadius s * 2 in
  let s' := setBox s
              (bminus (minX b) padding, bminus (minY b) padding, bminus (minZ b) padding)
              (bplus (maxX b) padding, bplus (maxY b) padding, bplus (maxZ b) padding) in
  let densityField := buildDensityField s' positions colors count in
  (s', march s' densityField).

End CPU.

(** ** The compute-shader engine: WGSL shaders and [MeshReconstructor] *)

Module GPU.

(** *** Machine integers of WGSL *)

(** [u32] arithmetic wraps modulo 2^32. *)
Definition wrap32 (z : Z) : Z := (z mod 2 ^ 32)%Z.

(** [i32] arithmetic wraps into [-2^31, 2^31). *)
Definition wrapi32 (z : Z) : Z := ((z + 2 ^ 31) mod 2 ^ 32 - 2 ^ 31)%Z.

(** Rounding toward zero. *)
Definition truncZ (x : R) : Z := if Rltb x 0 then Zceil x else Zfloor x.

(** The conversions [u32(x)] and [i32(x)] of an [f32]: truncation, then
    clamping into the range of the target type. *)
Definition u32_of_f32 (x : R) : Z := Z.max 0 (Z.min (truncZ x) (2 ^ 32 - 1)).
Definition i32_of_f32 (x : R) : Z := Z.max (- 2 ^ 31) (Z.min (truncZ x) (2 ^ 31 - 1)).

(** [a[idx] = v] on a buffer: a write past the end is discarded. *)
Fixpoint setAt {A : Type} (idx : nat) (v : A) (a : list A) : list A :=
  match a, idx with
  | [], _ => []
  | _ :: t, O => v :: t
  | x :: t, S i => x :: setAt i v t
  end.

(** [atomicAdd(&a[idx], v)] on a buffer of [atomic<u32>]. *)
Fixpoint atomicAdd (idx : nat) (v : Z) (a : list Z) : list Z :=
  match a, idx with
  | [], _ => []
  | x :: t, O => wrap32 (x + v) :: t
  | x :: t, S i => x :: atomicAdd i v t
  end.

(** *** Buffers *)

(** [struct Vertex] of the march shader (the three pads left out). *)
Record Vertex : Type := {
  position : vec3;
  normal : vec3;
  color : vec3
}.

Definition zeroVertex : Vertex :=
  {| position := (0, 0, 0); normal := (0, 0, 0); color := (0, 0, 0) |}.

(** [struct SplatParams] *)
Record SplatParams : Type := {
  sp_gridMin : bound3;
  sp_gridMax : bound3;
  sp_splatRadius : R
}.

(** [struct MCParams] *)
Record MCParams : Type := {
  mc_isoValue : R;
  gridSizeX : Z;
  gridSizeY : Z;
  gridSizeZ : Z
}.

(** The storage and uniform buffers bound to the four pipelines.  A buffer
    of [vec4<f32>] is kept flat, four numbers per element. *)
Record Buffers : Type := {
  pointsBuffer : list R;
  colorsBuffer : list R;
  voxelBuffer : list Z;
  voxelColorsRBuffer : list Z;
  voxelColorsGBuffer : list Z;
  voxelColorsBBuffer : list Z;
  normalizedColorsBuffer : list vec4;
  densityBuffer : list R;
  vertexBuffer : list Vertex;
  triangleCountBuffer : Z;
  paramsBuffer : SplatParams;
  mcParamsBuffer : MCParams;
  gridSizeBuffer : Z * Z * Z;
  numPointsBuffer : Z;
  gridMinBuffer : bound3;
  gridMaxBuffer : bound3;
  edgeTableBuffer : list Z;
  triTableBuffer : list Z
}.

Definition withVoxels (b : Buffers) (d r g bl : list Z) : Buffers :=
  {| pointsBuffer := pointsBuffer b; colorsBuffer := colorsBuffer b;
     voxelBuffer := d; voxelColorsRBuffer := r;
     voxelColorsGBuffer := g; voxelColorsBBuffer := bl;
     normalizedColorsBuffer := normalizedColorsBuffer b;
     densityBuffer := densityBuffer b; vertexBuffer := vertexBuffer b;
     triangleCountBuffer := triangleCountBuffer b;
     paramsBuffer := paramsBuffer b; mcParamsBuffer := mcParamsBuffer b;
     gridSizeBuffer := gridSizeBuffer b; numPointsBuffer := numPointsBuffer b;
     gridMinBuffer := gridMinBuffer b; gridMaxBuffer := gridMaxBuffer b;
     edgeTableBuffer := edgeTableBuffer b; triTableBuffer := triTableBuffer b |}.

Definition withNormalized (b : Buffers) (d : list R) (c : list vec4) : Buffers :=
  {| pointsBuffer := pointsBuffer b; colorsBuffer := colorsBuffer b;
     voxelBuffer := voxelBuffer b; voxelColorsRBuffer := voxelColorsRBuffer b;
     voxelColorsGBuffer := voxelColorsGBuffer b;
     voxelColorsBBuffer := voxelColorsBBuffer b;
     normalizedColorsBuffer := c;
     densityBuffer := d; vertexBuffer := vertexBuffer b;
     triangleCountBuffer := triangleCountBuffer b;
     paramsBuffer := paramsBuffer b; mcParamsBuffer := mcParamsBuffer b;
     gridSizeBuffer := gridSizeBuffer b; numPointsBuffer := numPointsBuffer b;
     gridMinBuffer := gridMinBuffer b; gridMaxBuffer := gridMaxBuffer b;
     edgeTableBuffer := edgeTableBuffer b; triTableBuffer := triTableBuffer b |}.

Definition withOutput (b : Buffers) (v : list Vertex) (n : Z) : Buffers :=
  {| pointsBuffer := pointsBuffer b; colorsBuffer := colorsBuffer b;
     voxelBuffer := voxelBuffer b; voxelColorsRBuffer := voxelColorsRBuffer b;
     voxelColorsGBuffer := voxelColorsGBuffer b;
     voxelColorsBBuffer := voxelColorsBBuffer b;
     normalizedColorsBuffer := normalizedColorsBuffer b;
     densityBuffer := densityBuffer b; vertexBuffer := v;
     triangleCountBuffer := n;
     paramsBuffer := paramsBuffer b; mcParamsBuffer := mcParamsBuffer b;
     gridSizeBuffer := gridSizeBuffer b; numPointsBuffer := numPointsBuffer b;
     gridMinBuffer := gridMinBuffer b; gridMaxBuffer := gridMaxBuffer b;
     edgeTableBuffer := edgeTableBuffer b; triTableBuffer := triTableBuffer b |}.

Definition withUniforms (b : Buffers) (p : SplatParams) (mc : MCParams)
    (lo hi : bound3) : Buffers :=
  {| pointsBuffer := pointsBuffer b; colorsBuffer := colorsBuffer b;
     voxelBuffer := voxelBuffer b; voxelColorsRBuffer := voxelColorsRBuffer b;
     voxelColorsGBuffer := voxelColorsGBuffer b;
     voxelColorsBBuffer := voxelColorsBBuffer b;
     normalizedColorsBuffer := normalizedColorsBuffer b;
     densityBuffer := densityBuffer b; vertexBuffer := vertexBuffer b;
     triangleCountBuffer := triangleCountBuffer b;
     paramsBuffer := p; mcParamsBuffer := mc;
     gridSizeBuffer := gridSizeBuffer b; numPointsBuffer := numPointsBuffer b;
     gridMinBuffer := lo; gridMaxBuffer := hi;
     edgeTableBuffer := edgeTableBuffer b; triTableBuffer := triTableBuffer b |}.

(** *** [clearVoxelShader] *)

Definition totalVoxels (gridSize : Z * Z * Z) : Z :=
  let '(gx, gy, gz) := gridSize in wrap32 (wrap32 (gx * gy) * gz).

Definition clearVoxel (b : Buffers) (idx : Z) : Buffers :=
  if (idx >=? totalVoxels (gridSizeBuffer b))%Z then b
  else
    let i := Z.to_nat idx in
    withVoxels b (setAt i 0%Z (voxelBuffer b))
                 (setAt i 0%Z (voxelColorsRBuffer b))
                 (setAt i 0%Z (voxelColorsGBuffer b))
                 (setAt i 0%Z (voxelColorsBBuffer b)).

(** *** [splatPointsShader] *)

(** [x + y * gridSize.x + z * gridSize.x * gridSize.y] in [u32]. *)
Definition voxelIndex (gx gy : Z) (x y z : Z) : Z :=
  wrap32 (wrap32 (x + wrap32 (y * gx)) + wrap32 (wrap32 (z * gx) * gy)).

(** World-space distance from [pos] to the centre of [cell]. *)
Definition worldDist (gridMin cellSize pos : vec3) (cell : Z * Z * Z) : R :=
  let '(cx, cy, cz) := cell in
  let '(sx, sy, sz) := cellSize in
  let '(mx, my, mz) := gridMin in
  let '(px, py, pz) := pos in
  let cellCenter := ((IZR cx + 0.5) * sx + mx,
                     (IZR cy + 0.5) * sy + my,
                     (IZR cz + 0.5) * sz + mz) in
  let '(ccx, ccy, ccz) := cellCenter in
  sqrt ((px - ccx) ^ 2 + (py - ccy) ^ 2 + (pz - ccz) ^ 2).

(** [exp(-0.5 * (dist / (radius * 0.5)) * (dist / (radius * 0.5)))] *)
Definition splatWeight (radius dist : R) : R :=
  exp (- 0.5 * (dist / (radius * 0.5)) * (dist / (radius * 0.5))).

(** The body of the innermost loop of the splat shader. *)
Definition splatCell (gridSize : Z * Z * Z) (gridMin cellSize pos color : vec3)
    (radius : R) (b : Buffers) (cell : Z * Z * Z) : Buffers :=
  let '(gx, gy, gz) := gridSize in
  let '(cx, cy, cz) := cell in
  if ((cx <? 0) || (cx >=? wrapi32 gx) || (cy <? 0) || (cy >=? wrapi32 gy)
      || (cz <? 0) || (cz >=? wrapi32 gz))%Z then b
  else
    let dist := worldDist gridMin cellSize pos cell in
    if Rltb radius dist then b
    else
      let weight := splatWeight radius dist in
      let quantizedWeight := u32_of_f32 (weight * 1000.0) in
      if (quantizedWeight =? 0)%Z then b
      else
        let idx := Z.to_nat (voxelIndex gx gy (wrap32 cx) (wrap32 cy) (wrap32 cz)) in
        let '(colx, coly, colz) := color in
        withVoxels b
          (atomicAdd idx quantizedWeight (voxelBuffer b))
          (atomicAdd idx (u32_of_f32 (colx * IZR quantizedWeight)) (voxelColorsRBuffer b))
          (atomicAdd idx (u32_of_f32 (coly * IZR quantizedWeight)) (voxelColorsGBuffer b))
          (atomicAdd idx (u32_of_f32 (colz * IZR quantizedWeight)) (voxelColorsBBuffer b)).

(** The cells visited by the loops over [dz], [dy], [dx]. *)
Definition neighbourhood (centerCell : Z * Z * Z) (radiusCells : Z) : list (Z * Z * Z) :=
  let '(cx, cy, cz) := centerCell in
  flat_map (fun dz =>
    flat_map (fun dy =>
      map (fun dx => (wrapi32 (cx + dx), wrapi32 (cy + dy), wrapi32 (cz + dz)))
          (zrange (- radiusCells) radiusCells))
      (zrange (- radiusCells) radiusCells))
    (zrange (- radiusCells) radiusCells).

(** [main] of the splat shader for the invocation [pointIdx]. *)
Definition splatPoints (b : Buffers) (pointIdx : Z) : Buffers :=
  if (pointIdx >=? numPointsBuffer b)%Z then b
  else
    let i := Z.to_nat pointIdx in
    let pos := (nth (i * 4) (pointsBuffer b) 0,
                nth (i * 4 + 1) (pointsBuffer b) 0,
                nth (i * 4 + 2) (pointsBuffer b) 0) in
    let color := (nth (i * 4) (colorsBuffer b) 0,
                  nth (i * 4 + 1) (colorsBuffer b) 0,
                  nth (i * 4 + 2) (colorsBuffer b) 0) in
    let params := paramsBuffer b in
    let '(gx, gy, gz) := gridSizeBuffer b in
    let '(minx, miny, minz) := finite3 (sp_gridMin params) in
    let '(maxx, maxy, maxz) := finite3 (sp_gridMax params) in
    let '(px, py, pz) := pos in
    let gridExtent := (maxx - minx, maxy - miny, maxz - minz) in
    let '(ex, ey, ez) := gridExtent in
    let cellSize := (ex / IZR gx, ey / IZR gy, ez / IZR gz) in
    let '(sx, sy, sz) := cellSize in
    let relPos := ((px - minx) / ex, (py - miny) / ey, (pz - minz) / ez) in
    let '(relx, rely, relz) := relPos in
    let gridPos := (relx * IZR gx, rely * IZR gy, relz * IZR gz) in
    let '(gpx, gpy, gpz) := gridPos in
    let radius := sp_splatRadius params in
    let radiusCells := i32_of_f32 (IZR (Zceil (radius / Rmin sx (Rmin sy sz)))) in
    let centerCell := (i32_of_f32 (IZR (Zfloor gpx)),
                       i32_of_f32 (IZR (Zfloor gpy)),
                       i32_of_f32 (IZR (Zfloor gpz))) in
    fold_left (splatCell (gridSizeBuffer b) (minx, miny, minz) cellSize pos color radius)
              (neighbourhood centerCell radiusCells) b.

(** *** [normalizeDensityShader] *)

Definition rawDensityOf (raw : Z) : R := IZR raw / 1000.0.

Definition normalizedDensityOf (raw : Z) : R := 1.0 - exp (- rawDensityOf raw * 0.5).

Definition normalizedColorOf (raw r g bl : Z) : vec4 :=
  let rawDensity := rawDensityOf raw in
  if Rltb 0.001 rawDensity then
    (IZR r / rawDensity / 1000.0,
     IZR g / rawDensity / 1000.0,
     IZR bl / rawDensity / 1000.0,
     1.0)
  else (0.5, 0.5, 0.5, 1.0).

Definition normalizeDensity (b : Buffers) (idx : Z) : Buffers :=
  if (idx >=? totalVoxels (gridSizeBuffer b))%Z then b
  else
    let i := Z.to_nat idx in
    let raw := nth i (voxelBuffer b) 0%Z in
    withNormalized b
      (setAt i (normalizedDensityOf raw) (densityBuffer b))
      (setAt i (normalizedColorOf raw (nth i (voxelColorsRBuffer b) 0%Z)
                                      (nth i (voxelColorsGBuffer b) 0%Z)
                                      (nth i (voxelColorsBBuffer b) 0%Z))
             (normalizedColorsBuffer b)).

(** *** [marchingCubesShader] *)

(** WGSL [mix(a, b, t)], per component. *)
Definition mix1 (a b t : R) : R := a * (1 - t) + b * t.

Definition mix (a b : vec3) (t : R) : vec3 :=
  let '(ax, ay, az) := a in
  let '(bx, by_, bz) := b in
  (mix1 ax bx t, mix1 ay by_ t, mix1 az bz t).

Definition worldPos (mc : MCParams) (gridMin gridMax : vec3) (x y z : Z) : vec3 :=
  let '(ax, ay, az) := gridMin in
  let '(bx, by_, bz) := gridMax in
  let tx := IZR x / (IZR (gridSizeX mc) - 1.0) in
  let ty := IZR y / (IZR (gridSizeY mc) - 1.0) in
  let tz := IZR z / (IZR (gridSizeZ mc) - 1.0) in
  (mix1 ax bx tx, mix1 ay by_ ty, mix1 az bz tz).

Definition interpolateVertex (isoValue : R) (p1 p2 : vec3) (v1 v2 : R) : vec3 :=
  if Rltb (Rabs (isoValue - v1)) 0.00001 then p1
  else if Rltb (Rabs (isoValue - v2)) 0.00001 then p2
  else if Rltb (Rabs (v1 - v2)) 0.00001 then p1
  else
    let t := (isoValue - v1) / (v2 - v1) in
    mix p1 p2 t.

Definition interpolateColor (isoValue : R) (c1 c2 : vec3) (v1 v2 : R) : vec3 :=
  if Rltb (Rabs (v1 - v2)) 0.00001 then c1
  else
    let t := (isoValue - v1) / (v2 - v1) in
    mix c1 c2 t.

(** The eight corners of the cell [(x, y, z)], in the order of the
    assignments to [cornerDensity]. *)
Definition corners (x y z : Z) : list (Z * Z * Z) :=
  [ (x, y, z); (wrap32 (x + 1), y, z); (wrap32 (x + 1), wrap32 (y + 1), z);
    (x, wrap32 (y + 1), z); (x, y, wrap32 (z + 1));
    (wrap32 (x + 1), y, wrap32 (z + 1));
    (wrap32 (x + 1), wrap32 (y + 1), wrap32 (z + 1));
    (x, wrap32 (y + 1), wrap32 (z + 1)) ].

(** The loop [for (i = 0; i < 8; i++) if (cornerDensity[i] < isoValue)
    cubeIndex |= (1u << i)]. *)
Definition cubeIndexOf (cornerDensity : list R) (isoValue : R) : Z :=
  fold_left (fun cubeIndex i =>
               if Rltb (nth i cornerDensity 0) isoValue
               then Z.lor cubeIndex (Z.shiftl 1 (Z.of_nat i))
               else cubeIndex)
            (seq 0 8) 0%Z.

(** The corner pairs of the twelve statements that fill [vertList] and
    [colorList]. *)
Definition edgeCorners : list (nat * nat) := [
  (0, 1); (1, 2); (2, 3); (3, 0);
  (4, 5); (5, 6); (6, 7); (7, 4);
  (0, 4); (1, 5); (2, 6); (3, 7)
]%nat.

(** The twelve statements [if ((edges & 2^e) != 0) { list[e] = ... }]; a
    slot that is not written keeps the zero of its declaration. *)
Definition edgeList (edges : Z) (cornerAttr : list vec3) (cornerDensity : list R)
    (interpolate : vec3 -> vec3 -> R -> R -> vec3) : list vec3 :=
  map (fun e =>
         if negb (Z.land edges (2 ^ Z.of_nat e) =? 0)%Z then
           let '(a, b) := nth e edgeCorners (0, 0)%nat in
           interpolate (nth a cornerAttr (0, 0, 0)) (nth b cornerAttr (0, 0, 0))
                       (nth a cornerDensity 0) (nth b cornerDensity 0)
         else (0, 0, 0))
      (seq 0 12).

Definition cross (a b : vec3) : vec3 :=
  let '(ax, ay, az) := a in
  let '(bx, by_, bz) := b in
  (ay * bz - az * by_, az * bx - ax * bz, ax * by_ - ay * bx).

Definition vlength (a : vec3) : R :=
  let '(ax, ay, az) := a in sqrt (ax ^ 2 + ay ^ 2 + az ^ 2).

Definition vsub (a b : vec3) : vec3 :=
  let '(ax, ay, az) := a in
  let '(bx, by_, bz) := b in
  (ax - bx, ay - by_, az - bz).

Definition normalize (a : vec3) : vec3 :=
  let '(ax, ay, az) := a in
  (ax / vlength a, ay / vlength a, az / vlength a).

(** The output of the march pass: the vertex buffer and the counter. *)
Definition Output : Type := (list Vertex * Z)%type.

(** The end of the triangle loop body: reserve a slot with
    [atomicAdd(&triangleCount, 1u)], and write the three vertices when
    [baseIdx + 2u < arrayLength(&vertices)]. *)
Definition store (v0 v1 v2 nrm c0 c1 c2 : vec3) (o : Output) : Output :=
  let '(vertices, triangleCount) := o in
  let triIdx := triangleCount in
  let triangleCount := wrap32 (triangleCount + 1) in
  let baseIdx := wrap32 (triIdx * 3) in
  if (wrap32 (baseIdx + 2) <? Z.of_nat (length vertices))%Z then
    let vertices :=
      setAt (Z.to_nat baseIdx)
            {| position := v0; normal := nrm; color := c0 |} vertices in
    let vertices :=
      setAt (Z.to_nat (wrap32 (baseIdx + 1)))
            {| position := v1; normal := nrm; color := c1 |} vertices in
    let vertices :=
      setAt (Z.to_nat (wrap32 (baseIdx + 2)))
            {| position := v2; normal := nrm; color := c2 |} vertices in
    (vertices, triangleCount)
  else (vertices, triangleCount).

(** The body of the triangle loop after the sentinel test. *)
Definition emit (vertList colorList : list vec3) (idx0 idx1 idx2 : Z)
    (o : Output) : Output :=
  let v0 := nth (Z.to_nat idx0) vertList (0, 0, 0) in
  let v1 := nth (Z.to_nat idx1) vertList (0, 0, 0) in
  let v2 := nth (Z.to_nat idx2) vertList (0, 0, 0) in
  let c0 := nth (Z.to_nat idx0) colorList (0, 0, 0) in
  let c1 := nth (Z.to_nat idx1) colorList (0, 0, 0) in
  let c2 := nth (Z.to_nat idx2) colorList (0, 0, 0) in
  let edge1 := vsub v1 v0 in
  let edge2 := vsub v2 v0 in
  let faceNormal := cross edge1 edge2 in
  if Rltb (vlength faceNormal) 0.0001 then o
  else store v0 v1 v2 (normalize faceNormal) c0 c1 c2 o.

(** The loop [for (i = 0u; i < 16u; i += 3u)], leaving at the first
    negative entry; [steps] holds the values of [i]. *)
Fixpoint triangleLoop (triTable : list Z) (tableOffset : Z)
    (vertList colorList : list vec3) (steps : list Z) (o : Output) : Output :=
  match steps with
  | [] => o
  | i :: rest =>
      let idx0 := nth (Z.to_nat (wrap32 (tableOffset + i))) triTable 0%Z in
      if (idx0 <? 0)%Z then o
      else
        let idx1 := nth (Z.to_nat (wrap32 (wrap32 (tableOffset + i) + 1))) triTable 0%Z in
        let idx2 := nth (Z.to_nat (wrap32 (wrap32 (tableOffset + i) + 2))) triTable 0%Z in
        triangleLoop triTable tableOffset vertList colorList rest
                     (emit vertList colorList idx0 idx1 idx2 o)
  end.

Definition loopSteps : list Z := [0; 3; 6; 9; 12; 15]%Z.

(** [main] of the march shader for the invocation [(x, y, z)]. *)
Definition marchingCubes (b : Buffers) (id : Z * Z * Z) : Buffers :=
  let '(x, y, z) := id in
  let params := mcParamsBuffer b in
  if ((x >=? wrap32 (gridSizeX params - 1)) || (y >=? wrap32 (gridSizeY params - 1))
      || (z >=? wrap32 (gridSizeZ params - 1)))%Z then b
  else
    let vIndex := fun c : Z * Z * Z =>
      let '(cx, cy, cz) := c in
      Z.to_nat (voxelIndex (gridSizeX params) (gridSizeY params) cx cy cz) in
    let cornerDensity := map (fun c => nth (vIndex c) (densityBuffer b) 0) (corners x y z) in
    let cubeIndex := cubeIndexOf cornerDensity (mc_isoValue params) in
    if (nth (Z.to_nat cubeIndex) (edgeTableBuffer b) 0 =? 0)%Z then b
    else
      let gridMin := finite3 (gridMinBuffer b) in
      let gridMax := finite3 (gridMaxBuffer b) in
      let cornerPos :=
        map (fun c => let '(cx, cy, cz) := c in worldPos params gridMin gridMax cx cy cz)
            (corners x y z) in
      let cornerColor :=
        map (fun c =>
               let '(r, g, bl, _) :=
                 nth (vIndex c) (normalizedColorsBuffer b) (0, 0, 0, 0) in
               (r, g, bl))
            (corners x y z) in
      let edges := nth (Z.to_nat cubeIndex) (edgeTableBuffer b) 0%Z in
      let vertList :=
        edgeList edges cornerPos cornerDensity (interpolateVertex (mc_isoValue params)) in
      let colorList :=
        edgeList edges cornerColor cornerDensity (interpolateColor (mc_isoValue params)) in
      let tableOffset := wrap32 (cubeIndex * 16) in
      let '(vertices, triangleCount) :=
        triangleLoop (triTableBuffer b) tableOffset vertList colorList loopSteps
                     (vertexBuffer b, triangleCountBuffer b) in
      withOutput b vertices triangleCount.

(** *** Dispatch *)

(** A compute pass of the command encoder, with its workgroup counts. *)
Inductive Pass : Type :=
| ClearPass (workgroups : nat)
| SplatPass (workgroups : nat)
| NormalizePass (workgroups : nat)
| MarchPass (wx wy wz : nat).

(** The invocations of a one-dimensional dispatch with workgroup size 64,
    run one after the other. *)
Definition dispatch1 (main : Buffers -> Z -> Buffers) (workgroups : nat)
    (b : Buffers) : Buffers :=
  fold_left main (map Z.of_nat (seq 0 (64 * workgroups))) b.

(** The invocations of a dispatch with workgroup size (4, 4, 4). *)
Definition invocations3 (wx wy wz : nat) : list (Z * Z * Z) :=
  flat_map (fun z =>
    flat_map (fun y =>
      map (fun x => (Z.of_nat x, Z.of_nat y, Z.of_nat z)) (seq 0 (4 * wx)))
      (seq 0 (4 * wy)))
    (seq 0 (4 * wz)).

Definition runPass (b : Buffers) (p : Pass) : Buffers :=
  match p with
  | ClearPass wg => dispatch1 clearVoxel wg b
  | SplatPass wg => dispatch1 splatPoints wg b
  | NormalizePass wg => dispatch1 normalizeDensity wg b
  | MarchPass wx wy wz => fold_left marchingCubes (invocations3 wx wy wz) b
  end.

(** [queue.submit]: the passes run in order, each one after the previous
    one has completed. *)
Definition submit (b : Buffers) (passes : list Pass) : Buffers :=
  fold_left runPass passes b.

(** *** The host class [MeshReconstructor] *)

Record ReconstructParams : Type := {
  isoValue : R;
  splatRadius : R;
  gridMin : bound3;
  gridMax : bound3
}.

(** The fields of the class that the reconstruction reads or writes.
    [buffers] is [None] while [pointsBuffer] and the other data buffers are
    [null]; [readbackSize] is [readbackBuffer.size]. *)
Record MeshReconstructor : Type := {
  initialized : bool;
  numPoints : nat;
  gridSize : nat * nat * nat;
  triangleCount : Z;
  params : ReconstructParams;
  maxBufferSize : Z;
  maxTriangleCount : Z;
  readbackSize : Z;
  buffers : option Buffers
}.

(** The object after a successful [init] on a device whose
    [limits.maxBufferSize] is [limit]. *)
Definition initial (limit : Z) : MeshReconstructor :=
  {| initialized := true;
     numPoints := 0;
     gridSize := (64, 64, 64)%nat;
     triangleCount := 0;
     params := {| isoValue := 0.5; splatRadius := 1.5;
                  gridMin := (Fin (-60), Fin (-60), Fin (-60));
                  gridMax := (Fin 60, Fin 60, Fin 60) |};
     maxBufferSize := limit;
     maxTriangleCount := 0;
     readbackSize := 0;
     buffers := None |}.

(** The [colorData] loop of [setPointCloud]. *)
Definition colorData (colors : option (list R)) (count : nat) : list R :=
  flat_map (fun i =>
              match colors with
              | Some colors =>
                  [nth (i * 3) colors 0; nth (i * 3 + 1) colors 0;
                   nth (i * 3 + 2) colors 0; 1.0]
              | None => [0.5; 0.5; 0.5; 1.0]
              end)
           (seq 0 count).

(** The [pointData] loop of [setPointCloud]. *)
Definition pointData (positions : list R) (count : nat) : list R :=
  flat_map (fun i =>
              [nth (i * 3) positions 0; nth (i * 3 + 1) positions 0;
               nth (i * 3 + 2) positions 0; 0])
           (seq 0 count).

(** The size in bytes of the vertex buffer for the resolution [gridRes] on
    a device limited to [maxBufferSize] bytes per buffer. *)
Definition actualBufferSize (gridRes maxBufferSize : Z) : Z :=
  let gridCount := (gridRes * gridRes * gridRes)%Z in
  let surfaceVoxels := (6 * gridRes * gridRes * 2)%Z in
  let maxTriangles := Z.min (surfaceVoxels * 5) gridCount in
  let maxVertices := (maxTriangles * 3)%Z in
  let bytesPerVertex := 48%Z in
  let vertexBufferSize := (maxVertices * bytesPerVertex)%Z in
  let maxAllowedSize := Z.min maxBufferSize (512 * 1024 * 1024) in
  Z.min vertexBufferSize maxAllowedSize.

(** [Math.floor(actualBufferSize / bytesPerVertex / 3)] *)
Definition capacity (gridRes maxBufferSize : Z) : Z :=
  (actualBufferSize gridRes maxBufferSize / (48 * 3))%Z.

Section Host.

(** The two tables of [marchingCubesTables.ts], which [setPointCloud] uploads.
    The file is not part of the sources at hand: the tables are parameters. *)
Variable EDGE_TABLE : list Z.
Variable TRI_TABLE : list Z.

Definition setPointCloud (m : MeshReconstructor) (positions : list R)
    (colors : option (list R)) (count gridRes : nat) : MeshReconstructor :=
  if negb (initialized m) then m
  else
    let gridCount := (gridRes * gridRes * gridRes)%nat in
    let b := boundingBox positions count in
    let padding := splatRadius (params m) * 2 in
    let params' :=
      {| isoValue := isoValue (params m);
         splatRadius := splatRadius (params m);
         gridMin := (bminus (minX b) padding, bminus (minY b) padding,
                     bminus (minZ b) padding);
         gridMax := (bplus (maxX b) padding, bplus (maxY b) padding,
                     bplus (maxZ b) padding) |} in
    let size := actualBufferSize (Z.of_nat gridRes) (maxBufferSize m) in
    let g := wrap32 (Z.of_nat gridRes) in
    {| initialized := initialized m;
       numPoints := count;
       gridSize := (gridRes, gridRes, gridRes);
       triangleCount := triangleCount m;
       params := params';
       maxBufferSize := maxBufferSize m;
       maxTriangleCount := capacity (Z.of_nat gridRes) (maxBufferSize m);
       readbackSize := size;
       buffers := Some
         {| pointsBuffer := pointData positions count;
            colorsBuffer := colorData colors count;
            voxelBuffer := repeat 0%Z gridCount;
            voxelColorsRBuffer := repeat 0%Z gridCount;
            voxelColorsGBuffer := repeat 0%Z gridCount;
            voxelColorsBBuffer := repeat 0%Z gridCount;
            normalizedColorsBuffer := repeat (0, 0, 0, 0) gridCount;
            densityBuffer := repeat 0 gridCount;
            vertexBuffer := repeat zeroVertex (Z.to_nat (size / 48));
            triangleCountBuffer := 0;
            paramsBuffer := {| sp_gridMin := (Fin 0, Fin 0, Fin 0);
                               sp_gridMax := (Fin 0, Fin 0, Fin 0);
                               sp_splatRadius := 0 |};
            mcParamsBuffer := {| mc_isoValue := 0; gridSizeX := 0;
                                 gridSizeY := 0; gridSizeZ := 0 |};
            gridSizeBuffer := (g, g, g);
            numPointsBuffer := wrap32 (Z.of_nat count);
            gridMinBuffer := (Fin 0, Fin 0, Fin 0);
            gridMaxBuffer := (Fin 0, Fin 0, Fin 0);
            edgeTableBuffer := EDGE_TABLE;
            triTableBuffer := TRI_TABLE |} |}.

End Host.

(** [updateSplatParams] followed by [updateMCParams]. *)
Definition updateParams (m : MeshReconstructor) (b : Buffers) : Buffers :=
  let '(gx, gy, gz) := gridSize m in
  withUniforms b
    {| sp_gridMin := gridMin (params m);
       sp_gridMax := gridMax (params m);
       sp_splatRadius := splatRadius (params m) |}
    {| mc_isoValue := isoValue (params m);
       gridSizeX := wrap32 (Z.of_nat gx);
       gridSizeY := wrap32 (Z.of_nat gy);
       gridSizeZ := wrap32 (Z.of_nat gz) |}
    (gridMin (params m)) (gridMax (params m)).

(** [Math.ceil(n / d)] for natural numbers. *)
Definition ceilDiv (n d : nat) : nat := ((n + d - 1) / d)%nat.

(** The four compute passes that [reconstruct] records in its command
    encoder. *)
Definition encodePasses (m : MeshReconstructor) : list Pass :=
  let '(gx, gy, gz) := gridSize m in
  let gridCount := (gx * gy * gz)%nat in
  let pointWorkgroups := ceilDiv (numPoints m) 64 in
  let gridWorkgroups := ceilDiv gridCount 64 in
  [ ClearPass gridWorkgroups;
    SplatPass pointWorkgroups;
    NormalizePass gridWorkgroups;
    MarchPass (ceilDiv gx 4) (ceilDiv gy 4) (ceilDiv gz 4) ].

(** [this.maxTriangleCount || n] *)
Definition orElse (maxTriangleCount n : Z) : Z :=
  if (maxTriangleCount =? 0)%Z then n else maxTriangleCount.

(** The twelve floats of a vertex in the readback buffer. *)
Definition vertexFloats (v : Vertex) : list R :=
  let '(px, py, pz) := position v in
  let '(nx, ny, nz) := normal v in
  let '(cx, cy, cz) := color v in
  [px; py; pz; 0; nx; ny; nz; 0; cx; cy; cz; 0].

(** The unpacking loop: three numbers per vertex, read at [offset] in each
    group of twelve. *)
Definition unpack (vertexData : list R) (vertexCount offset : nat) : list R :=
  flat_map (fun i =>
              [nth (i * 12 + offset) vertexData 0;
               nth (i * 12 + offset + 1) vertexData 0;
               nth (i * 12 + offset + 2) vertexData 0])
           (seq 0 vertexCount).

Definition withResult (m : MeshReconstructor) (n : Z) (b : Buffers) : MeshReconstructor :=
  {| initialized := initialized m;
     numPoints := numPoints m;
     gridSize := gridSize m;
     triangleCount := n;
     params := params m;
     maxBufferSize := maxBufferSize m;
     maxTriangleCount := maxTriangleCount m;
     readbackSize := readbackSize m;
     buffers := Some b |}.

(** [reconstruct]: the object after the call, the passes it submitted, and
    the value of the promise ([None] is [null]). *)
Definition reconstruct (m : MeshReconstructor)
    : MeshReconstructor * list Pass * option Result :=
  if negb (initialized m) then (m, [], None)
  else
    match buffers m with
    | None => (m, [], None)
    | Some b =>
        let b := updateParams m b in
        let b := withOutput b (vertexBuffer b) 0 in
        let passes := encodePasses m in
        let b := submit b passes in
        let countData := triangleCountBuffer b in
        let triangleCount := Z.min countData (orElse (maxTriangleCount m) countData) in
        if (triangleCount =? 0)%Z then
          (withResult m triangleCount b, passes,
           Some {| positions := []; normals := []; colors := [];
                   Mesh.triangleCount := 0 |})
        else
          let actualTriangles :=
            Z.min triangleCount (orElse (maxTriangleCount m) triangleCount) in
          let vertexCount := (actualTriangles * 3)%Z in
          let bytesPerVertex := 48%Z in
          let readSize := Z.min (vertexCount * bytesPerVertex) (readbackSize m) in
          let vertexData :=
            firstn (Z.to_nat (readSize / 4)) (flat_map vertexFloats (vertexBuffer b)) in
          (withResult m triangleCount b, passes,
           Some {| positions := unpack vertexData (Z.to_nat vertexCount) 0;
                   normals := unpack vertexData (Z.to_nat vertexCount) 4;
                   colors := unpack vertexData (Z.to_nat vertexCount) 8;
                   Mesh.triangleCount := Z.to_nat triangleCount |})
    end.

End GPU.

(** ** Auxiliary definitions used in the statements *)

(** The value built from eight flags, bit [k] being flag [k]. *)
Definition ofBits (b0 b1 b2 b3 b4 b5 b6 b7 : bool) : Z :=
  (Z.b2z b0 + 2 * Z.b2z b1 + 4 * Z.b2z b2 + 8 * Z.b2z b3 + 16 * Z.b2z b4
   + 32 * Z.b2z b5 + 64 * Z.b2z b6 + 128 * Z.b2z b7)%Z.

(** Linear interpolation [p1 + t * (p2 - p1)], per component. *)
Definition lerp (p1 p2 : vec3) (t : R) : vec3 :=
  let '(p1x, p1y, p1z) := p1 in
  let '(p2x, p2y, p2z) := p2 in
  (p1x + t * (p2x - p1x), p1y + t * (p2y - p1y), p1z + t * (p2z - p1z)).

Definition isSome {A : Type} (o : option A) : bool :=
  match o with
  | Some _ => true
  | None => false
  end.

(** Every slot that [CPU.triangleLoop] reads on the row [triangles] holds a
    vertex and a colour: the recursion follows the loop, and tests the six
    reads of each iteration instead of emitting the triangle. *)
Fixpoint readsDefined (vertList colorList : list (option vec3))
    (triangles : list Z) : bool :=
  match triangles with
  | [] => true
  | e0 :: rest =>
      if (e0 =? -1)%Z then true
      else
        isSome (CPU.slot vertList (Some e0))
        && isSome (CPU.slot vertList (hd_error rest))
        && isSome (CPU.slot vertList (hd_error (tl rest)))
        && isSome (CPU.slot colorList (Some e0))
        && isSome (CPU.slot colorList (hd_error rest))
        && isSome (CPU.slot colorList (hd_error (tl rest)))
        && match rest with
           | _ :: _ :: rest' => readsDefined vertList colorList rest'
           | _ => true
           end
  end.

(** The edge loop of [CPU.march] writes slot [e] of its two lists. *)
Definition written (edges : Z) (e : option Z) : bool :=
  match e with
  | Some z =>
      ((0 <=? z) && (z <? 12) && negb (Z.land edges (Z.shiftl 1 z) =? 0))%Z
  | None => false
  end.

(** [readsDefined], decided on the edge mask alone. *)
Fixpoint readsWritten (edges : Z) (triangles : list Z) : bool :=
  match triangles with
  | [] => true
  | e0 :: rest =>
      if (e0 =? -1)%Z then true
      else
        written edges (Some e0)
        && written edges (hd_error rest)
        && written edges (hd_error (tl rest))
        && match rest with
           | _ :: _ :: rest' => readsWritten edges rest'
           | _ => true
           end
  end.

(** Modelled from the spec: the two tables of [marchingCubesTables.ts], a
    file that is not among the sources.  The spec describes one pair of
    tables shared by both engines; the march shader reads the triangle
    table flat, sixteen entries per cube index, so each row of the shared
    table is padded with the sentinel [-1]. *)
Definition EDGE_TABLE : list Z := Tables.edgeTable.

Definition padRow (row : list Z) : list Z :=
  firstn 16 (Tables.beforeSentinel row ++ repeat (-1)%Z 16).

Definition TRI_TABLE : list Z := flat_map padRow Tables.triTable.

(** The check of row [i] of the two tables that [lookup_tables_consistent]
    rests on. *)
Definition rowChecked (i : nat) : bool :=
  let edges := nth i Tables.edgeTable 0%Z in
  let row := nth i Tables.triTable [] in
  Tables.rowConsistent edges row && readsWritten edges row.

(** Sum of a list of real numbers. *)
Definition Rsum (l : list R) : R := fold_right Rplus 0 l.

(** The cell [(ix, iy, iz)] lies in the cube of half-width [c] around
    [(cx, cy, cz)]. *)
Definition inCube (cx cy cz c ix iy iz : Z) : bool :=
  ((cx - c <=? ix) && (ix <=? cx + c) && (cy - c <=? iy) && (iy <=? cy + c)
   && (cz - c <=? iz) && (iz <=? cz + c))%Z.

(** What one splat of the sequential engine adds to the density of the
    cell [(ix, iy, iz)], for a point at grid position [(nx, ny, nz)]. *)
Definition CPU_weight (splatRadius nx ny nz : R) (ix iy iz : Z) : R :=
  let dist := CPU.cellDist nx ny nz ix iy iz in
  if Rltb splatRadius dist then 0 else CPU.gaussian splatRadius dist.

(** The cell is in the grid [g] and its array index is [k]. *)
Definition CPU_hits (g : nat * nat * nat) (k : nat) (cell : Z * Z * Z) : bool :=
  let '(ix, iy, iz) := cell in
  negb (CPU.outside g ix iy iz) && Nat.eqb (CPU.getIndex g ix iy iz) k.

Definition CPU_weightOf (splatRadius nx ny nz : R) (cell : Z * Z * Z) : R :=
  let '(ix, iy, iz) := cell in
  CPU_weight splatRadius nx ny nz ix iy iz.


(** A reconstructor with a 3 x 3 x 3 grid and splat radius 1, after
    [reconstruct] on the single point (0, 0, 0) without colours. *)
Definition CPU_small : CPU.CPUMarchingCubes :=
  {| CPU.gridSize := (3, 3, 3)%nat;
     CPU.isoValue := 0.5;
     CPU.splatRadius := 1;
     CPU.gridMin := (Fin (-60), Fin (-60), Fin (-60));
     CPU.gridMax := (Fin 60, Fin 60, Fin 60) |}.

Definition CPU_example : CPU.CPUMarchingCubes :=
  fst (CPU.reconstruct CPU_small [0; 0; 0] None 1).

(** The three output arrays of [CPU.march] hold nine numbers per triangle. *)
Definition outInv (o : CPU.Out) : Prop :=
  exists k : nat,
    length (CPU.vertices o) = (9 * k)%nat
    /\ length (CPU.o_normals o) = (9 * k)%nat
    /\ length (CPU.o_colors o) = (9 * k)%nat.

(** What the clear and splat shaders leave alone, what the normalize shader
    leaves alone, and what the march shader leaves alone. *)
Definition nonVoxel (b : GPU.Buffers) :=
  (GPU.pointsBuffer b, GPU.colorsBuffer b, GPU.normalizedColorsBuffer b,
   GPU.densityBuffer b, GPU.vertexBuffer b, GPU.triangleCountBuffer b,
   GPU.paramsBuffer b, GPU.mcParamsBuffer b, GPU.gridSizeBuffer b,
   GPU.numPointsBuffer b, GPU.gridMinBuffer b, GPU.gridMaxBuffer b,
   GPU.edgeTableBuffer b, GPU.triTableBuffer b).

Definition nonNormalized (b : GPU.Buffers) :=
  (GPU.pointsBuffer b, GPU.colorsBuffer b, GPU.voxelBuffer b,
   GPU.voxelColorsRBuffer b, GPU.voxelColorsGBuffer b, GPU.voxelColorsBBuffer b,
   GPU.vertexBuffer b, GPU.triangleCountBuffer b,
   GPU.paramsBuffer b, GPU.mcParamsBuffer b, GPU.gridSizeBuffer b,
   GPU.numPointsBuffer b, GPU.gridMinBuffer b, GPU.gridMaxBuffer b,
   GPU.edgeTableBuffer b, GPU.triTableBuffer b).


(** Buffers of a grid of one voxel that holds the raw weight 1000. *)
Definition GPU_oneVoxel : GPU.Buffers :=
  {| GPU.pointsBuffer := []; GPU.colorsBuffer := [];
     GPU.voxelBuffer := [1000%Z]; GPU.voxelColorsRBuffer := [0%Z];
     GPU.voxelColorsGBuffer := [0%Z]; GPU.voxelColorsBBuffer := [0%Z];
     GPU.normalizedColorsBuffer := [(0, 0, 0, 0)];
     GPU.densityBuffer := [0]; GPU.vertexBuffer := [];
     GPU.triangleCountBuffer := 0%Z;
     GPU.paramsBuffer := {| GPU.sp_gridMin := (Fin 0, Fin 0, Fin 0);
                            GPU.sp_gridMax := (Fin 1, Fin 1, Fin 1);
                            GPU.sp_splatRadius := 1 |};
     GPU.mcParamsBuffer := {| GPU.mc_isoValue := 0.5; GPU.gridSizeX := 1;
                              GPU.gridSizeY := 1; GPU.gridSizeZ := 1 |};
     GPU.gridSizeBuffer := (1, 1, 1)%Z; GPU.numPointsBuffer := 1%Z;
     GPU.gridMinBuffer := (Fin 0, Fin 0, Fin 0);
     GPU.gridMaxBuffer := (Fin 1, Fin 1, Fin 1);
     GPU.edgeTableBuffer := []; GPU.triTableBuffer := [] |}.




(** An initialised reconstructor on a device with the default buffer
    limit of WebGPU, with the splat radius set to 1. *)
Definition GPU_device : GPU.MeshReconstructor :=
  {| GPU.initialized := true;
     GPU.numPoints := 0;
     GPU.gridSize := (64, 64, 64)%nat;
     GPU.triangleCount := 0;
     GPU.params := {| GPU.isoValue := 0.5; GPU.splatRadius := 1;
                      GPU.gridMin := (Fin (-60), Fin (-60), Fin (-60));
                      GPU.gridMax := (Fin 60, Fin 60, Fin 60) |};
     GPU.maxBufferSize := 268435456;
     GPU.maxTriangleCount := 0;
     GPU.readbackSize := 0;
     GPU.buffers := None |}.

(** The buffers of a reconstructor once [reconstruct] has written the
    uniforms. *)
Definition GPU_bound (m : GPU.MeshReconstructor) : GPU.Buffers :=
  match GPU.buffers m with
  | Some b => GPU.updateParams m b
  | None => GPU_oneVoxel
  end.

(** The buffers bound for the two points (0, 0, 0) and ([x1], 0, 0) without
    colours, on a grid of one cell and with splat radius 1, written out:
    the box is [-2, x1 + 2] x [-2, 2] x [-2, 2]. *)
Definition GPU_twoPoints (x1 : R) : GPU.Buffers :=
  {| GPU.pointsBuffer := [0; 0; 0; 0; x1; 0; 0; 0];
     GPU.colorsBuffer := [0.5; 0.5; 0.5; 1.0; 0.5; 0.5; 0.5; 1.0];
     GPU.voxelBuffer := [0%Z]; GPU.voxelColorsRBuffer := [0%Z];
     GPU.voxelColorsGBuffer := [0%Z]; GPU.voxelColorsBBuffer := [0%Z];
     GPU.normalizedColorsBuffer := [(0, 0, 0, 0)];
     GPU.densityBuffer := [0];
     GPU.vertexBuffer := [GPU.zeroVertex; GPU.zeroVertex; GPU.zeroVertex];
     GPU.triangleCountBuffer := 0%Z;
     GPU.paramsBuffer := {| GPU.sp_gridMin := (Fin (-2), Fin (-2), Fin (-2));
                            GPU.sp_gridMax := (Fin (x1 + 2), Fin 2, Fin 2);
                            GPU.sp_splatRadius := 1 |};
     GPU.mcParamsBuffer := {| GPU.mc_isoValue := 0.5; GPU.gridSizeX := 1;
                              GPU.gridSizeY := 1; GPU.gridSizeZ := 1 |};
     GPU.gridSizeBuffer := (1, 1, 1)%Z; GPU.numPointsBuffer := 2%Z;
     GPU.gridMinBuffer := (Fin (-2), Fin (-2), Fin (-2));
     GPU.gridMaxBuffer := (Fin (x1 + 2), Fin 2, Fin 2);
     GPU.edgeTableBuffer := EDGE_TABLE; GPU.triTableBuffer := TRI_TABLE |}.

(** The vertex buffer keeps its length, and the counter stays a [u32]. *)
Definition outputInv (len : nat) (o : GPU.Output) : Prop :=
  length (fst o) = len /\ (0 <= snd o < 2 ^ 32)%Z.

(** Nine numbers per triangle in each of the three arrays of a result. *)
Definition wellShaped (r : Mesh.Result) : Prop :=
  length (positions r) = (triangleCount r * 9)%nat
  /\ length (normals r) = (triangleCount r * 9)%nat
  /\ length (colors r) = (triangleCount r * 9)%nat.

(** The buffers at the end of [GPU.reconstruct], when it starts from the
    buffers [b0]. *)
Definition GPU_final (m : GPU.MeshReconstructor) (b0 : GPU.Buffers) : GPU.Buffers :=
  let b1 := GPU.updateParams m b0 in
  GPU.submit (GPU.withOutput b1 (GPU.vertexBuffer b1) 0) (GPU.encodePasses m).

(** * Properties *)

(** ** Tests on real numbers *)

Lemma Rltb_true (x y : R) : Rltb x y = true <-> x < y.
Proof. unfold Rltb. destruct (Rlt_dec x y); split; intros; (congruence || lra). Qed.

Lemma Rltb_false (x y : R) : Rltb x y = false <-> y <= x.
Proof. unfold Rltb. destruct (Rlt_dec x y); split; intros; (congruence || lra). Qed.

Ltac Rltb_cases x y :=
  let H := fresh "Hlt" in
  destruct (Rltb x y) eqn:H;
  [ apply Rltb_true in H | apply Rltb_false in H ].

(** ** Cube classification (C2) *)

Section CubeIndex.

Local Open Scope Z_scope.

Lemma CPU_cubeIndex_bits (d : list R) (iso : R) :
  CPU.cubeIndexOf d iso =
  ofBits (Rltb iso (nth 0 d 0%R)) (Rltb iso (nth 1 d 0%R)) (Rltb iso (nth 2 d 0%R))
         (Rltb iso (nth 3 d 0%R)) (Rltb iso (nth 4 d 0%R)) (Rltb iso (nth 5 d 0%R))
         (Rltb iso (nth 6 d 0%R)) (Rltb iso (nth 7 d 0%R)).
Proof.
  unfold CPU.cubeIndexOf, ofBits.
  destruct (Rltb iso (nth 0 d 0%R)), (Rltb iso (nth 1 d 0%R)),
    (Rltb iso (nth 2 d 0%R)), (Rltb iso (nth 3 d 0%R)),
    (Rltb iso (nth 4 d 0%R)), (Rltb iso (nth 5 d 0%R)),
    (Rltb iso (nth 6 d 0%R)), (Rltb iso (nth 7 d 0%R)); reflexivity.
Qed.

Lemma GPU_cubeIndex_bits (d : list R) (iso : R) :
  GPU.cubeIndexOf d iso =
  ofBits (Rltb (nth 0 d 0%R) iso) (Rltb (nth 1 d 0%R) iso) (Rltb (nth 2 d 0%R) iso)
         (Rltb (nth 3 d 0%R) iso) (Rltb (nth 4 d 0%R) iso) (Rltb (nth 5 d 0%R) iso)
         (Rltb (nth 6 d 0%R) iso) (Rltb (nth 7 d 0%R) iso).
Proof.
  unfold GPU.cubeIndexOf, ofBits. cbn [seq fold_left].
  destruct (Rltb (nth 0 d 0%R) iso), (Rltb (nth 1 d 0%R) iso),
    (Rltb (nth 2 d 0%R) iso), (Rltb (nth 3 d 0%R) iso),
    (Rltb (nth 4 d 0%R) iso), (Rltb (nth 5 d 0%R) iso),
    (Rltb (nth 6 d 0%R) iso), (Rltb (nth 7 d 0%R) iso); reflexivity.
Qed.

Lemma ofBits_range b0 b1 b2 b3 b4 b5 b6 b7 :
  0 <= ofBits b0 b1 b2 b3 b4 b5 b6 b7 < 256.
Proof.
  destruct b0, b1, b2, b3, b4, b5, b6, b7; unfold ofBits; cbn; lia.
Qed.

Lemma ofBits_testbit b0 b1 b2 b3 b4 b5 b6 b7 (i : nat) :
  (i < 8)%nat ->
  Z.testbit (ofBits b0 b1 b2 b3 b4 b5 b6 b7) (Z.of_nat i)
  = nth i [b0; b1; b2; b3; b4; b5; b6; b7] false.
Proof.
  intros Hi.
  do 8 (destruct i as [|i]; [destruct b0, b1, b2, b3, b4, b5, b6, b7; reflexivity|]).
  lia.
Qed.

Lemma ofBits_complement b0 b1 b2 b3 b4 b5 b6 b7 :
  ofBits (negb b0) (negb b1) (negb b2) (negb b3) (negb b4) (negb b5) (negb b6) (negb b7)
  = Z.lxor (ofBits b0 b1 b2 b3 b4 b5 b6 b7) 255.
Proof. destruct b0, b1, b2, b3, b4, b5, b6, b7; reflexivity. Qed.

Lemma CPU_cubeIndex_range (d : list R) (iso : R) : 0 <= CPU.cubeIndexOf d iso < 256.
Proof. rewrite CPU_cubeIndex_bits. apply ofBits_range. Qed.

Lemma GPU_cubeIndex_range (d : list R) (iso : R) : 0 <= GPU.cubeIndexOf d iso < 256.
Proof. rewrite GPU_cubeIndex_bits. apply ofBits_range. Qed.

End CubeIndex.

Lemma Rltb_flip (x y : R) : x <> y -> Rltb x y = negb (Rltb y x).
Proof.
  intros Hne. Rltb_cases x y; Rltb_cases y x; try reflexivity; lra.
Qed.

(** C2. With the eight corner densities [d] of a cell, the march shader
    sets bit [i] of [cubeIndex] exactly when [d[i] < isoValue], and the
    sequential [march] exactly when [d[i] > iso]; both indices lie in
    [0, 255], and when no corner density equals the iso value each index is
    the bitwise complement (on eight bits) of the other. *)
Theorem cubeIndex_conventions (d : list R) (iso : R) :
  length d = 8%nat ->
  (forall i, (i < 8)%nat ->
     Z.testbit (GPU.cubeIndexOf d iso) (Z.of_nat i) = true <-> nth i d 0 < iso)
  /\ (forall i, (i < 8)%nat ->
        Z.testbit (CPU.cubeIndexOf d iso) (Z.of_nat i) = true <-> nth i d 0 > iso)
  /\ ((forall i, (i < 8)%nat -> nth i d 0 <> iso) ->
      GPU.cubeIndexOf d iso = Z.lxor (CPU.cubeIndexOf d iso) 255
      /\ CPU.cubeIndexOf d iso = Z.lxor (GPU.cubeIndexOf d iso) 255
      /\ (GPU.cubeIndexOf d iso + CPU.cubeIndexOf d iso = 255)%Z).
Proof.
  intros _. split; [|split].
  - intros i Hi. rewrite GPU_cubeIndex_bits, ofBits_testbit by assumption.
    do 8 (destruct i as [|i]; [cbn [nth]; apply Rltb_true|]). lia.
  - intros i Hi. rewrite CPU_cubeIndex_bits, ofBits_testbit by assumption.
    do 8 (destruct i as [|i]; [cbn [nth]; apply Rltb_true|]). lia.
  - intros Hne.
    assert (Hflip : forall i, (i < 8)%nat ->
              Rltb (nth i d 0) iso = negb (Rltb iso (nth i d 0))).
    { intros i Hi. apply Rltb_flip. auto. }
    rewrite GPU_cubeIndex_bits, CPU_cubeIndex_bits.
    rewrite (Hflip 0%nat), (Hflip 1%nat), (Hflip 2%nat), (Hflip 3%nat),
      (Hflip 4%nat), (Hflip 5%nat), (Hflip 6%nat), (Hflip 7%nat) by lia.
    destruct (Rltb iso (nth 0 d 0)), (Rltb iso (nth 1 d 0)),
      (Rltb iso (nth 2 d 0)), (Rltb iso (nth 3 d 0)),
      (Rltb iso (nth 4 d 0)), (Rltb iso (nth 5 d 0)),
      (Rltb iso (nth 6 d 0)), (Rltb iso (nth 7 d 0)); repeat split; reflexivity.
Qed.

Lemma cubeIndex_conventions_witness :
  length [0; 0; 0; 0; 1; 1; 1; 1] = 8%nat
  /\ (forall i, (i < 8)%nat ->
        Z.testbit (GPU.cubeIndexOf [0; 0; 0; 0; 1; 1; 1; 1] 0.5) (Z.of_nat i) = true
        <-> nth i [0; 0; 0; 0; 1; 1; 1; 1] 0 < 0.5).
Proof.
  split.
  - reflexivity.
  - apply (cubeIndex_conventions [0; 0; 0; 0; 1; 1; 1; 1] 0.5). reflexivity.
Defined.

(** ** Vertex interpolation (C8) *)

Lemma GPU_mix_lerp (p1 p2 : vec3) (t : R) : GPU.mix p1 p2 t = lerp p1 p2 t.
Proof.
  destruct p1 as [[p1x p1y] p1z], p2 as [[p2x p2y] p2z].
  unfold GPU.mix, GPU.mix1, lerp. f_equal; [f_equal|]; ring.
Qed.

(** C8. [interpolateVertex] of both engines returns a point for all
    arguments.  It is [p1] when [|iso - v1| < 1e-5]; otherwise [p2] when
    [|iso - v2| < 1e-5]; otherwise [p1] when [|v1 - v2| < 1e-5]; otherwise
    the linear interpolation [p1 + t * (p2 - p1)] with
    [t = (iso - v1) / (v2 - v1)], and the divisor then has magnitude at
    least 1e-5. *)
Theorem interpolateVertex_guards (p1 p2 : vec3) (v1 v2 iso : R) :
  GPU.interpolateVertex iso p1 p2 v1 v2 = CPU.interpolateVertex p1 p2 v1 v2 iso
  /\ (Rabs (iso - v1) < 0.00001 -> CPU.interpolateVertex p1 p2 v1 v2 iso = p1)
  /\ (~ Rabs (iso - v1) < 0.00001 -> Rabs (iso - v2) < 0.00001 ->
      CPU.interpolateVertex p1 p2 v1 v2 iso = p2)
  /\ (~ Rabs (iso - v1) < 0.00001 -> ~ Rabs (iso - v2) < 0.00001 ->
      Rabs (v1 - v2) < 0.00001 ->
      CPU.interpolateVertex p1 p2 v1 v2 iso = p1)
  /\ (~ Rabs (iso - v1) < 0.00001 -> ~ Rabs (iso - v2) < 0.00001 ->
      ~ Rabs (v1 - v2) < 0.00001 ->
      CPU.interpolateVertex p1 p2 v1 v2 iso = lerp p1 p2 ((iso - v1) / (v2 - v1))
      /\ 0.00001 <= Rabs (v2 - v1)).
Proof.
  unfold GPU.interpolateVertex, CPU.interpolateVertex.
  rewrite GPU_mix_lerp.
  Rltb_cases (Rabs (iso - v1)) 0.00001;
    [|Rltb_cases (Rabs (iso - v2)) 0.00001;
      [|Rltb_cases (Rabs (v1 - v2)) 0.00001]].
  - repeat split; intros; try reflexivity; lra.
  - repeat split; intros; try reflexivity; lra.
  - repeat split; intros; try reflexivity; lra.
  - assert (Hsym : Rabs (v2 - v1) = Rabs (v1 - v2)) by apply Rabs_minus_sym.
    destruct p1 as [[p1x p1y] p1z], p2 as [[p2x p2y] p2z].
    repeat split; intros; try reflexivity; lra.
Qed.

(** ** Lookup tables (C10) *)

Lemma slot_edgeList (edges : Z) (attr : list vec3) (vals : list R) (iso : R)
    (f : vec3 -> vec3 -> R -> R -> R -> vec3) (e : option Z) :
  isSome (CPU.slot (CPU.edgeList edges attr vals iso f) e) = written edges e.
Proof.
  destruct e as [z|]; [|reflexivity].
  unfold CPU.slot, written.
  destruct (Z.ltb_spec z 0) as [Hneg|Hpos].
  - destruct (Z.leb_spec 0 z); [lia|reflexivity].
  - destruct (Z.leb_spec 0 z); [|lia]. cbn [andb].
    destruct (Z.ltb_spec z 12) as [Hlt|Hge].
    + cbn [andb]. rewrite <- (Z2Nat.id z) at 2 by assumption.
      assert (Hk : (Z.to_nat z < 12)%nat) by lia.
      generalize dependent (Z.to_nat z). intros k Hk.
      unfold CPU.edgeList.
      do 12 (destruct k as [|k];
             [cbn [seq map nth];
              match goal with
              | |- context [negb ?b] => destruct b
              end; reflexivity|]).
      lia.
    + cbn [andb]. rewrite nth_overflow; [reflexivity|].
      unfold CPU.edgeList. rewrite length_map, length_seq. lia.
Qed.

Lemma readsDefined_written (edges : Z) (pos col : list vec3) (vals : list R)
    (iso : R) (f g : vec3 -> vec3 -> R -> R -> R -> vec3) (n : nat) :
  forall triangles, (length triangles <= n)%nat ->
    readsDefined (CPU.edgeList edges pos vals iso f)
                 (CPU.edgeList edges col vals iso g) triangles
    = readsWritten edges triangles.
Proof.
  induction n as [|n IH]; intros triangles Hlen.
  - destruct triangles; [reflexivity|cbn in Hlen; lia].
  - destruct triangles as [|e0 rest]; [reflexivity|].
    cbn [readsDefined readsWritten].
    destruct (e0 =? -1)%Z; [reflexivity|].
    rewrite !slot_edgeList.
    assert (Hrest :
      match rest with
      | _ :: _ :: rest' =>
          readsDefined (CPU.edgeList edges pos vals iso f)
                       (CPU.edgeList edges col vals iso g) rest'
      | _ => true
      end
      = match rest with
        | _ :: _ :: rest' => readsWritten edges rest'
        | _ => true
        end).
    { destruct rest as [|e1 [|e2 rest']]; try reflexivity.
      apply IH. cbn in Hlen. lia. }
    rewrite Hrest.
    destruct (written edges (Some e0)), (written edges (hd_error rest)),
      (written edges (hd_error (tl rest))); reflexivity.
Qed.

Lemma rows_checked : forallb rowChecked (seq 0 256) = true.
Proof. vm_compute. reflexivity. Qed.

(** C10. For every cube index [i] in [0, 255]: each entry of [triTable[i]]
    before the [-1] sentinel is an edge index in [0, 11] whose bit is set in
    [edgeTable[i]]; the row holds at most five triangles; and every
    [vertList] / [colorList] slot that the triangle loop of [march] reads for
    this cube index was written by the edge loop.  The cube index that
    [march] computes always lies in [0, 255]. *)
Theorem lookup_tables_consistent (i : nat) :
  (i < 256)%nat ->
  let edges := nth i Tables.edgeTable 0%Z in
  let row := nth i Tables.triTable [] in
  Forall (fun e => (0 <= e <= 11)%Z /\ Z.testbit edges e = true)
         (Tables.beforeSentinel row)
  /\ (exists k, (k <= 5)%nat /\ length (Tables.beforeSentinel row) = (3 * k)%nat)
  /\ (forall cubePos cubeColors cubeValues iso,
        readsDefined
          (CPU.edgeList edges cubePos cubeValues iso CPU.interpolateVertex)
          (CPU.edgeList edges cubeColors cubeValues iso CPU.interpolateColor)
          row = true)
  /\ (forall cubeValues iso,
        (Z.to_nat (CPU.cubeIndexOf cubeValues iso) < 256)%nat).
Proof.
  intros Hi edges row.
  assert (Hrow : rowChecked i = true).
  { pose proof rows_checked as H. rewrite forallb_forall in H.
    apply H. apply in_seq. lia. }
  unfold rowChecked in Hrow. fold edges row in Hrow.
  apply andb_true_iff in Hrow. destruct Hrow as [Hcons Hreads].
  unfold Tables.rowConsistent in Hcons.
  apply andb_true_iff in Hcons. destruct Hcons as [Hcons Hmod].
  apply andb_true_iff in Hcons. destruct Hcons as [Hact Hlen].
  split; [|split; [|split]].
  - apply Forall_forall. intros e He.
    rewrite forallb_forall in Hact. specialize (Hact e He).
    unfold Tables.activeEdge in Hact.
    apply andb_true_iff in Hact. destruct Hact as [Hact Hbit].
    apply andb_true_iff in Hact. destruct Hact as [H0 H11].
    apply Z.leb_le in H0. apply Z.leb_le in H11. auto.
  - apply Nat.leb_le in Hlen. apply Nat.eqb_eq in Hmod.
    exists (length (Tables.beforeSentinel row) / 3)%nat. split.
    + apply Nat.Div0.div_le_upper_bound. lia.
    + pose proof (Nat.div_mod_eq (length (Tables.beforeSentinel row)) 3). lia.
  - intros cubePos cubeColors cubeValues iso.
    rewrite (readsDefined_written _ _ _ _ _ _ _ (length row)) by lia.
    exact Hreads.
  - intros cubeValues iso.
    pose proof (CPU_cubeIndex_range cubeValues iso). lia.
Qed.

Lemma lookup_tables_consistent_witness :
  (1 < 256)%nat
  /\ Forall (fun e => (0 <= e <= 11)%Z /\ Z.testbit 0x109 e = true) [0; 8; 3]%Z.
Proof.
  split.
  - lia.
  - exact (proj1 (lookup_tables_consistent 1 ltac:(lia))).
Defined.

(** ** Arrays and loops *)

Lemma length_addAt (idx : nat) (w : R) (a : list R) :
  length (addAt idx w a) = length a.
Proof.
  revert idx. induction a as [|x t IH]; intros [|i]; cbn; auto.
Qed.

Lemma nth_addAt_same (idx : nat) (w : R) (a : list R) :
  (idx < length a)%nat -> nth idx (addAt idx w a) 0 = nth idx a 0 + w.
Proof.
  revert idx. induction a as [|x t IH]; intros [|i] Hlt; cbn in *; try lia.
  - reflexivity.
  - apply IH. lia.
Qed.

Lemma nth_addAt_other (idx k : nat) (w : R) (a : list R) :
  k <> idx -> nth k (addAt idx w a) 0 = nth k a 0.
Proof.
  revert idx k. induction a as [|x t IH]; intros [|i] [|k] Hne; cbn;
    try reflexivity; try congruence.
  apply IH. congruence.
Qed.

Lemma nth_addAt (idx k : nat) (w : R) (a : list R) :
  (k < length a)%nat ->
  nth k (addAt idx w a) 0 = nth k a 0 + (if Nat.eqb idx k then w else 0).
Proof.
  intros Hk. destruct (Nat.eqb_spec idx k) as [->|Hne].
  - apply nth_addAt_same. assumption.
  - rewrite nth_addAt_other by congruence. ring.
Qed.

Lemma in_zrange (lo hi z : Z) : In z (zrange lo hi) <-> (lo <= z <= hi)%Z.
Proof.
  unfold zrange. rewrite in_map_iff. split.
  - intros [k [<- Hk]]. apply in_seq in Hk. lia.
  - intros Hz. exists (Z.to_nat (z - lo)). split; [lia|].
    apply in_seq. lia.
Qed.

Lemma NoDup_zrange (lo hi : Z) : NoDup (zrange lo hi).
Proof.
  unfold zrange. apply NoDup_map_NoDup_ForallPairs.
  - intros a b _ _ Hab. lia.
  - apply seq_NoDup.
Qed.

Lemma NoDup_flat_map {A B : Type} (f : A -> list B) (l : list A) :
  NoDup l ->
  (forall a, In a l -> NoDup (f a)) ->
  (forall a a' b, In a l -> In a' l -> In b (f a) -> In b (f a') -> a = a') ->
  NoDup (flat_map f l).
Proof.
  induction l as [|x l IH]; intros Hnd Hf Hdisj; cbn.
  - constructor.
  - inversion Hnd as [|? ? Hx Hl]; subst.
    apply NoDup_app.
    + apply Hf. left. reflexivity.
    + apply IH; auto.
      * intros a Ha. apply Hf. right. assumption.
      * intros a a' b Ha Ha'. apply Hdisj; right; assumption.
    + intros b Hb Hb'. apply in_flat_map in Hb'. destruct Hb' as [a' [Ha' Hba']].
      assert (x = a') by (apply (Hdisj x a' b); auto; [left; reflexivity|right; assumption]).
      subst. contradiction.
Qed.

Lemma fold_left_preserves {A B : Type} (P : A -> Prop) (f : A -> B -> A)
    (l : list B) (a : A) :
  P a -> (forall x b, P x -> P (f x b)) -> P (fold_left f l a).
Proof.
  revert a. induction l as [|b l IH]; intros a Ha Hstep; cbn; auto.
Qed.

(** ** The splat of the sequential engine *)

Section CPUSplat.

Variable s : CPU.CPUMarchingCubes.
Variable colors : option (list R).
Variable i : nat.
Variables nx ny nz : R.

Let g := CPU.gridSize s.

Lemma outside_false (x y z : Z) :
  CPU.outside g x y z = false <->
  (0 <= x < Z.of_nat (fst (fst g)) /\ 0 <= y < Z.of_nat (snd (fst g))
   /\ 0 <= z < Z.of_nat (snd g))%Z.
Proof.
  unfold CPU.outside. destruct g as [[gx gy] gz]. cbn [fst snd].
  rewrite !orb_false_iff, !Z.ltb_ge, !Z.geb_leb, !Z.leb_gt. lia.
Qed.

Lemma getIndex_lt (x y z : Z) :
  CPU.outside g x y z = false ->
  (CPU.getIndex g x y z < fst (fst g) * snd (fst g) * snd g)%nat.
Proof.
  intros H. apply outside_false in H.
  unfold CPU.getIndex. destruct g as [[gx gy] gz]. cbn [fst snd] in *.
  destruct H as [Hx [Hy Hz]].
  assert (Hxy : (0 <= x * Z.of_nat gy)%Z) by (apply Z.mul_nonneg_nonneg; lia).
  assert (Hxyz : (0 <= x * Z.of_nat gy * Z.of_nat gz)%Z)
    by (apply Z.mul_nonneg_nonneg; lia).
  assert (Hyz : (0 <= y * Z.of_nat gz)%Z) by (apply Z.mul_nonneg_nonneg; lia).
  apply Nat2Z.inj_lt. rewrite Z2Nat.id by lia.
  rewrite !Nat2Z.inj_mul.
  assert (H1 : (x * Z.of_nat gy + y + 1 <= Z.of_nat gx * Z.of_nat gy)%Z) by nia.
  assert (H2 : ((x * Z.of_nat gy + y + 1) * Z.of_nat gz
                <= Z.of_nat gx * Z.of_nat gy * Z.of_nat gz)%Z)
    by (apply Z.mul_le_mono_nonneg_r; lia).
  lia.
Qed.

Lemma getIndex_inj (x y z x' y' z' : Z) :
  CPU.outside g x y z = false -> CPU.outside g x' y' z' = false ->
  CPU.getIndex g x y z = CPU.getIndex g x' y' z' ->
  (x, y, z) = (x', y', z').
Proof.
  intros H H' Heq. apply outside_false in H. apply outside_false in H'.
  unfold CPU.getIndex in Heq. destruct g as [[gx gy] gz]. cbn [fst snd] in *.
  destruct H as [Hx [Hy Hz]], H' as [Hx' [Hy' Hz']].
  assert (Hxy : (0 <= x * Z.of_nat gy)%Z) by (apply Z.mul_nonneg_nonneg; lia).
  assert (Hxyz : (0 <= x * Z.of_nat gy * Z.of_nat gz)%Z)
    by (apply Z.mul_nonneg_nonneg; lia).
  assert (Hyz : (0 <= y * Z.of_nat gz)%Z) by (apply Z.mul_nonneg_nonneg; lia).
  assert (Hxy' : (0 <= x' * Z.of_nat gy)%Z) by (apply Z.mul_nonneg_nonneg; lia).
  assert (Hxyz' : (0 <= x' * Z.of_nat gy * Z.of_nat gz)%Z)
    by (apply Z.mul_nonneg_nonneg; lia).
  assert (Hyz' : (0 <= y' * Z.of_nat gz)%Z) by (apply Z.mul_nonneg_nonneg; lia).
  apply Z2Nat.inj in Heq; [|lia|lia].
  assert (H1 : (x * Z.of_nat gy + y = x' * Z.of_nat gy + y' /\ z = z')%Z).
  { apply (Z.div_mod_unique (Z.of_nat gz)); [left; lia|left; lia|]. lia. }
  destruct H1 as [H1 ->].
  assert (H2 : (x = x' /\ y = y')%Z).
  { apply (Z.div_mod_unique (Z.of_nat gy)); [left; lia|left; lia|]. lia. }
  destruct H2 as [-> ->]. reflexivity.
Qed.

Lemma splatCell_lengths (a : CPU.Accum) (cell : Z * Z * Z) :
  length (CPU.a_density (CPU.splatCell s colors i nx ny nz a cell))
  = length (CPU.a_density a)
  /\ length (CPU.a_weights (CPU.splatCell s colors i nx ny nz a cell))
     = length (CPU.a_weights a).
Proof.
  destruct cell as [[ix iy] iz]. unfold CPU.splatCell.
  destruct (CPU.outside _ _ _ _); [auto|].
  destruct (Rltb _ _); [auto|].
  destruct colors; cbn; rewrite !length_addAt; auto.
Qed.

Lemma splatCell_density (a : CPU.Accum) (cell : Z * Z * Z) (k : nat) :
  (k < length (CPU.a_density a))%nat ->
  nth k (CPU.a_density (CPU.splatCell s colors i nx ny nz a cell)) 0
  = nth k (CPU.a_density a) 0 + (if CPU_hits g k cell then CPU_weightOf (CPU.splatRadius s) nx ny nz cell else 0).
Proof.
  intros Hk. destruct cell as [[ix iy] iz].
  unfold CPU.splatCell, CPU_hits, CPU_weightOf, CPU_weight. fold g.
  destruct (CPU.outside g ix iy iz); cbn [negb andb]; [ring|].
  destruct (Rltb (CPU.splatRadius s) (CPU.cellDist nx ny nz ix iy iz)).
  - destruct (Nat.eqb _ _); ring.
  - destruct colors; cbn [CPU.a_density]; apply nth_addAt; assumption.
Qed.

Lemma fold_splatCell_density (cs : list (Z * Z * Z)) (a : CPU.Accum) (k : nat) :
  (k < length (CPU.a_density a))%nat ->
  nth k (CPU.a_density (fold_left (CPU.splatCell s colors i nx ny nz) cs a)) 0
  = nth k (CPU.a_density a) 0
    + Rsum (map (fun c => if CPU_hits g k c then CPU_weightOf (CPU.splatRadius s) nx ny nz c else 0) cs).
Proof.
  revert a. induction cs as [|c cs IH]; intros a Hk; cbn [fold_left map Rsum fold_right].
  - ring.
  - rewrite IH by (rewrite (proj1 (splatCell_lengths a c)); assumption).
    rewrite splatCell_density by assumption. fold (Rsum (map (fun c => if CPU_hits g k c then CPU_weightOf (CPU.splatRadius s) nx ny nz c else 0) cs)). ring.
Qed.

Lemma Rsum_hits_absent (cs : list (Z * Z * Z)) (k : nat) :
  (forall c, In c cs -> CPU_hits g k c = false) ->
  Rsum (map (fun c => if CPU_hits g k c then CPU_weightOf (CPU.splatRadius s) nx ny nz c else 0) cs) = 0.
Proof.
  induction cs as [|c cs IH]; intros H; cbn; [reflexivity|].
  rewrite (H c) by (left; reflexivity).
  fold (Rsum (map (fun c => if CPU_hits g k c then CPU_weightOf (CPU.splatRadius s) nx ny nz c else 0) cs)).
  rewrite IH; [ring|]. intros c' Hc'. apply H. right. assumption.
Qed.

Lemma hits_unique (k : nat) (c t : Z * Z * Z) :
  CPU_hits g k c = true -> CPU_hits g k t = true -> c = t.
Proof.
  destruct c as [[x y] z], t as [[x' y'] z']. unfold CPU_hits.
  rewrite !andb_true_iff, !negb_true_iff, !Nat.eqb_eq.
  intros [Hc Hk] [Ht Hk']. apply getIndex_inj; congruence.
Qed.

Lemma Rsum_hits_once (cs : list (Z * Z * Z)) (k : nat) (t : Z * Z * Z) :
  NoDup cs -> In t cs -> CPU_hits g k t = true ->
  Rsum (map (fun c => if CPU_hits g k c then CPU_weightOf (CPU.splatRadius s) nx ny nz c else 0) cs) = CPU_weightOf (CPU.splatRadius s) nx ny nz t.
Proof.
  induction cs as [|c cs IH]; intros Hnd Hin Ht; [contradiction|].
  inversion Hnd as [|? ? Hc Hcs]; subst.
  cbn [map Rsum fold_right].
  fold (Rsum (map (fun c => if CPU_hits g k c then CPU_weightOf (CPU.splatRadius s) nx ny nz c else 0) cs)).
  destruct Hin as [->|Hin].
  - rewrite Ht. rewrite Rsum_hits_absent; [ring|].
    intros c' Hc'. destruct (CPU_hits g k c') eqn:Hh; [|reflexivity].
    assert (c' = t) by (apply (hits_unique k); assumption). subst. contradiction.
  - rewrite IH by assumption.
    destruct (CPU_hits g k c) eqn:Hh; [|ring].
    assert (c = t) by (apply (hits_unique k); assumption). subst. contradiction.
Qed.

End CPUSplat.

Lemma in_neighbourhood (cx cy cz c ix iy iz : Z) :
  In (ix, iy, iz) (CPU.neighbourhood cx cy cz c)
  <-> inCube cx cy cz c ix iy iz = true.
Proof.
  unfold CPU.neighbourhood, inCube.
  rewrite !andb_true_iff, !Z.leb_le, in_flat_map. split.
  - intros [dx [Hdx H]]. apply in_flat_map in H. destruct H as [dy [Hdy H]].
    apply in_map_iff in H. destruct H as [dz [Heq Hdz]].
    apply in_zrange in Hdx, Hdy, Hdz. inversion Heq; subst. lia.
  - intros H. exists (ix - cx)%Z. split; [apply in_zrange; lia|].
    apply in_flat_map. exists (iy - cy)%Z. split; [apply in_zrange; lia|].
    apply in_map_iff. exists (iz - cz)%Z. split; [|apply in_zrange; lia].
    f_equal; [f_equal|]; lia.
Qed.

Lemma NoDup_neighbourhood (cx cy cz c : Z) : NoDup (CPU.neighbourhood cx cy cz c).
Proof.
  unfold CPU.neighbourhood.
  apply NoDup_flat_map; [apply NoDup_zrange| |].
  - intros dx _. apply NoDup_flat_map; [apply NoDup_zrange| |].
    + intros dy _. apply NoDup_map_NoDup_ForallPairs; [|apply NoDup_zrange].
      intros a b _ _ Hab. inversion Hab. lia.
    + intros dy dy' b _ _ Hb Hb'.
      apply in_map_iff in Hb, Hb'.
      destruct Hb as [dz [<- _]], Hb' as [dz' [Heq _]]. inversion Heq. lia.
  - intros dx dx' b _ _ Hb Hb'.
    apply in_flat_map in Hb, Hb'.
    destruct Hb as [dy [_ Hb]], Hb' as [dy' [_ Hb']].
    apply in_map_iff in Hb, Hb'.
    destruct Hb as [dz [<- _]], Hb' as [dz' [Heq _]]. inversion Heq. lia.
Qed.

Lemma gaussian_formula (r dist : R) :
  CPU.gaussian r dist = exp (- (dist ^ 2 / (2 * (r * 0.5) ^ 2))).
Proof.
  unfold CPU.gaussian. f_equal.
  replace (2 * (r * 0.5) * (r * 0.5)) with (2 * (r * 0.5) ^ 2) by ring.
  unfold Rdiv. ring.
Qed.

(** What [splatPoint] adds to the density of a cell of the grid. *)
Lemma splatPoint_density (s : CPU.CPUMarchingCubes) (positions : list R)
    (colors : option (list R)) (a : CPU.Accum) (i : nat) (nx ny nz : R)
    (ix iy iz : Z) :
  CPU.gridCoords s positions i = (nx, ny, nz) ->
  CPU.outside (CPU.gridSize s) ix iy iz = false ->
  (CPU.getIndex (CPU.gridSize s) ix iy iz < length (CPU.a_density a))%nat ->
  nth (CPU.getIndex (CPU.gridSize s) ix iy iz)
      (CPU.a_density (CPU.splatPoint s positions colors a i)) 0
  = nth (CPU.getIndex (CPU.gridSize s) ix iy iz) (CPU.a_density a) 0
    + (if inCube (Zfloor nx) (Zfloor ny) (Zfloor nz) (Zceil (CPU.splatRadius s))
                 ix iy iz
       then CPU_weight (CPU.splatRadius s) nx ny nz ix iy iz
       else 0).
Proof.
  intros Hcoords Hin Hk. unfold CPU.splatPoint. rewrite Hcoords.
  rewrite fold_splatCell_density by assumption. f_equal.
  destruct (inCube _ _ _ _ ix iy iz) eqn:Hcube.
  - rewrite (Rsum_hits_once s nx ny nz _ _ (ix, iy, iz)).
    + reflexivity.
    + apply NoDup_neighbourhood.
    + apply in_neighbourhood. assumption.
    + unfold CPU_hits. rewrite Hin, Nat.eqb_refl. reflexivity.
  - apply Rsum_hits_absent. intros c Hc.
    destruct (CPU_hits (CPU.gridSize s) _ c) eqn:Hh; [|reflexivity].
    assert (c = (ix, iy, iz)).
    { apply (hits_unique s (CPU.getIndex (CPU.gridSize s) ix iy iz)); [assumption|].
      unfold CPU_hits. rewrite Hin, Nat.eqb_refl. reflexivity. }
    subst. apply in_neighbourhood in Hc. congruence.
Qed.

(** The sequential half of C4.  For the point [i], at grid position
    [(nx, ny, nz)], and every cell [(ix, iy, iz)] of the grid, at grid-space
    distance [dist] from the point: [splatPoint] adds to the density of the
    cell exactly [exp (- dist^2 / (2 sigma^2))] with [sigma = splatRadius * 0.5]
    when the cell lies in the cube of half-width [ceil splatRadius] around the
    cell that holds the point and [dist <= splatRadius]; it adds exactly 0
    when [dist > splatRadius], and exactly 0 outside that cube. *)
Lemma CPU_splat_adds (s : CPU.CPUMarchingCubes) (positions : list R)
    (colors : option (list R)) (a : CPU.Accum) (i : nat) (nx ny nz : R)
    (ix iy iz : Z) :
  CPU.gridCoords s positions i = (nx, ny, nz) ->
  CPU.outside (CPU.gridSize s) ix iy iz = false ->
  (CPU.getIndex (CPU.gridSize s) ix iy iz < length (CPU.a_density a))%nat ->
  let k := CPU.getIndex (CPU.gridSize s) ix iy iz in
  let dist := CPU.cellDist nx ny nz ix iy iz in
  let sigma := CPU.splatRadius s * 0.5 in
  let visited := inCube (Zfloor nx) (Zfloor ny) (Zfloor nz)
                        (Zceil (CPU.splatRadius s)) ix iy iz in
  let added := nth k (CPU.a_density (CPU.splatPoint s positions colors a i)) 0
               - nth k (CPU.a_density a) 0 in
  (visited = true -> dist <= CPU.splatRadius s ->
   added = exp (- (dist ^ 2 / (2 * sigma ^ 2))))
  /\ (dist > CPU.splatRadius s -> added = 0)
  /\ (visited = false -> added = 0).
Proof.
  intros Hcoords Hin Hk k dist sigma visited added.
  assert (Hadd : added = if visited
                         then CPU_weight (CPU.splatRadius s) nx ny nz ix iy iz
                         else 0).
  { unfold added, k. rewrite (splatPoint_density s positions colors a i nx ny nz)
      by assumption. fold visited. ring. }
  rewrite Hadd. unfold CPU_weight. fold dist.
  split; [|split].
  - intros -> Hle. apply Rltb_false in Hle. rewrite Hle. apply gaussian_formula.
  - intros Hgt. apply Rltb_true in Hgt. rewrite Hgt. destruct visited; reflexivity.
  - intros ->. reflexivity.
Qed.

(** ** The field built by the sequential engine *)









(** *** One point at the centre of a 3 x 3 x 3 grid *)

Lemma CPU_example_coords :
  CPU.gridCoords CPU_example [0; 0; 0] 0 = (1.5, 1.5, 1.5).
Proof.
  unfold CPU.gridCoords, CPU_example, CPU.reconstruct, CPU_small, boundingBox.
  cbn. f_equal; [f_equal|]; lra.
Qed.



(** ** The march of the sequential engine *)

Lemma length_spread (v : vec3) : length (CPU.spread v) = 3%nat.
Proof. destruct v as [[x y] z]. reflexivity. Qed.

Lemma emit_outInv (vl cl : list (option vec3)) (e0 e1 e2 : option Z) (o : CPU.Out) :
  outInv o -> outInv (CPU.emit vl cl e0 e1 e2 o).
Proof.
  intros Ho. unfold CPU.emit.
  destruct (CPU.slot vl e0) as [[[v0x v0y] v0z]|]; [|assumption].
  destruct (CPU.slot vl e1) as [[[v1x v1y] v1z]|]; [|assumption].
  destruct (CPU.slot vl e2) as [[[v2x v2y] v2z]|]; [|assumption].
  destruct (CPU.slot cl e0) as [c0|]; [|assumption].
  destruct (CPU.slot cl e1) as [c1|]; [|assumption].
  destruct (CPU.slot cl e2) as [c2|]; [|assumption].
  destruct (Rltb _ _); [assumption|].
  destruct Ho as [k (Hv & Hn & Hc)]. exists (S k).
  cbn [CPU.vertices CPU.o_normals CPU.o_colors].
  rewrite !length_app, !length_spread, Hv, Hn, Hc. lia.
Qed.

Lemma triangleLoop_outInv (vl cl : list (option vec3)) (n : nat) :
  forall triangles o, (length triangles <= n)%nat -> outInv o ->
    outInv (CPU.triangleLoop vl cl triangles o).
Proof.
  induction n as [|n IH]; intros triangles o Hlen Ho.
  - destruct triangles; [assumption|cbn in Hlen; lia].
  - destruct triangles as [|e0 rest]; [assumption|].
    cbn [CPU.triangleLoop]. destruct (e0 =? -1)%Z; [assumption|].
    destruct rest as [|e1 [|e2 rest']]; try (apply emit_outInv; assumption).
    apply IH; [cbn in Hlen; lia|]. apply emit_outInv. assumption.
Qed.

Lemma marchCell_outInv (s : CPU.CPUMarchingCubes) (f : CPU.DensityField)
    (o : CPU.Out) (cell : Z * Z * Z) :
  outInv o -> outInv (CPU.marchCell s f o cell).
Proof.
  intros Ho. destruct cell as [[ix iy] iz]. unfold CPU.marchCell.
  destruct (CPU.gridSize s) as [[gx gy] gz].
  destruct (_ =? 0)%Z; [assumption|].
  destruct (finite3 (CPU.gridMin s)) as [[minx miny] minz].
  destruct (finite3 (CPU.gridMax s)) as [[maxx maxy] maxz].
  eapply triangleLoop_outInv; [apply Nat.le_refl|assumption].
Qed.

Lemma CPU_march_lengths (s : CPU.CPUMarchingCubes) (f : CPU.DensityField) :
  let r := CPU.march s f in
  length (positions r) = (triangleCount r * 9)%nat
  /\ length (normals r) = (triangleCount r * 9)%nat
  /\ length (colors r) = (triangleCount r * 9)%nat.
Proof.
  unfold CPU.march. cbn [positions normals colors triangleCount].
  assert (H : outInv (fold_left (CPU.marchCell s f) (CPU.cells (CPU.gridSize s))
                                CPU.emptyOut)).
  { apply fold_left_preserves.
    - exists 0%nat. repeat split; reflexivity.
    - intros x b Hx. apply marchCell_outInv. assumption. }
  destruct H as [k (Hv & Hn & Hc)]. rewrite Hv, Hn, Hc.
  replace (9 * k / 9)%nat with k by (rewrite Nat.mul_comm, Nat.div_mul; lia).
  lia.
Qed.

(** *** An empty cloud *)

Lemma getDensity_zeros (g : nat * nat * nat) (n : nat) (x y z : Z) :
  CPU.getDensity g (CPU.zeros n) x y z = 0.
Proof.
  unfold CPU.getDensity, CPU.zeros. destruct (CPU.outside g x y z); [reflexivity|].
  apply nth_repeat.
Qed.

Lemma CPU_cubeIndex_zeros (iso : R) :
  nth (Z.to_nat (CPU.cubeIndexOf [0; 0; 0; 0; 0; 0; 0; 0] iso)) Tables.edgeTable 0%Z
  = 0%Z.
Proof.
  unfold CPU.cubeIndexOf. cbn [nth]. destruct (Rltb iso 0); reflexivity.
Qed.

Lemma marchCell_zeros (s : CPU.CPUMarchingCubes) (f : CPU.DensityField)
    (n : nat) (o : CPU.Out) (cell : Z * Z * Z) :
  CPU.density f = CPU.zeros n -> CPU.marchCell s f o cell = o.
Proof.
  intros Hd. destruct cell as [[ix iy] iz]. unfold CPU.marchCell.
  destruct (CPU.gridSize s) as [[gx gy] gz] eqn:Hg.
  cbn [CPU.corners map]. rewrite Hd, !getDensity_zeros.
  rewrite CPU_cubeIndex_zeros. reflexivity.
Qed.

Lemma march_zeros (s : CPU.CPUMarchingCubes) (f : CPU.DensityField) (n : nat) :
  CPU.density f = CPU.zeros n -> CPU.march s f = Mesh.empty.
Proof.
  intros Hd. unfold CPU.march.
  assert (H : fold_left (CPU.marchCell s f) (CPU.cells (CPU.gridSize s)) CPU.emptyOut
              = CPU.emptyOut).
  { apply (fold_left_preserves (fun o => o = CPU.emptyOut)); [reflexivity|].
    intros x b ->. apply (marchCell_zeros s f n). assumption. }
  rewrite H. reflexivity.
Qed.

(** The sequential [reconstruct] on an empty cloud: the mesh is empty for
    all parameters, and the box stored in the object is the infinite one. *)
Lemma CPU_reconstruct_empty (s : CPU.CPUMarchingCubes) (positions : list R)
    (colors : option (list R)) :
  snd (CPU.reconstruct s positions colors 0) = Mesh.empty
  /\ CPU.gridMin (fst (CPU.reconstruct s positions colors 0))
     = (PosInf, PosInf, PosInf)
  /\ CPU.gridMax (fst (CPU.reconstruct s positions colors 0))
     = (NegInf, NegInf, NegInf).
Proof.
  unfold CPU.reconstruct. cbn [fst snd]. split; [|split; reflexivity].
  set (s' := CPU.setBox s _ _).
  destruct (CPU.gridSize s') as [[gx gy] gz] eqn:Hg.
  apply (march_zeros s' _ (gx * gy * gz)).
  unfold CPU.buildDensityField, CPU.splatAll. rewrite Hg. reflexivity.
Qed.

(** ** The shaders: what each pass leaves alone *)

Lemma fold_left_proj {A B C : Type} (p : A -> C) (f : A -> B -> A)
    (l : list B) (a : A) :
  (forall x b, p (f x b) = p x) -> p (fold_left f l a) = p a.
Proof.
  intros H. revert a. induction l as [|b l IH]; intros a; cbn; [reflexivity|].
  rewrite IH. apply H.
Qed.

Lemma clearVoxel_frame (b : GPU.Buffers) (idx : Z) :
  nonVoxel (GPU.clearVoxel b idx) = nonVoxel b.
Proof. unfold GPU.clearVoxel. destruct (_ >=? _)%Z; reflexivity. Qed.

Lemma splatCell_frame (gridSize : Z * Z * Z) (gridMin cellSize pos color : vec3)
    (radius : R) (b : GPU.Buffers) (cell : Z * Z * Z) :
  nonVoxel (GPU.splatCell gridSize gridMin cellSize pos color radius b cell)
  = nonVoxel b.
Proof.
  unfold GPU.splatCell. destruct gridSize as [[gx gy] gz], cell as [[cx cy] cz].
  destruct (_ || _)%bool; [reflexivity|].
  destruct (Rltb _ _); [reflexivity|].
  destruct (_ =? 0)%Z; [reflexivity|].
  destruct color as [[colx coly] colz]. reflexivity.
Qed.

Lemma splatPoints_frame (b : GPU.Buffers) (pointIdx : Z) :
  nonVoxel (GPU.splatPoints b pointIdx) = nonVoxel b.
Proof.
  unfold GPU.splatPoints. destruct (_ >=? _)%Z; [reflexivity|].
  destruct (GPU.gridSizeBuffer b) as [[gx gy] gz].
  destruct (finite3 (GPU.sp_gridMin (GPU.paramsBuffer b))) as [[minx miny] minz].
  destruct (finite3 (GPU.sp_gridMax (GPU.paramsBuffer b))) as [[maxx maxy] maxz].
  apply fold_left_proj. intros x c. apply splatCell_frame.
Qed.

Lemma normalizeDensity_frame (b : GPU.Buffers) (idx : Z) :
  nonNormalized (GPU.normalizeDensity b idx) = nonNormalized b.
Proof. unfold GPU.normalizeDensity. destruct (_ >=? _)%Z; reflexivity. Qed.


Lemma clearPass_frame (wg : nat) (b : GPU.Buffers) :
  nonVoxel (GPU.dispatch1 GPU.clearVoxel wg b) = nonVoxel b.
Proof. apply fold_left_proj. apply clearVoxel_frame. Qed.

Lemma splatPass_frame (wg : nat) (b : GPU.Buffers) :
  nonVoxel (GPU.dispatch1 GPU.splatPoints wg b) = nonVoxel b.
Proof. apply fold_left_proj. apply splatPoints_frame. Qed.

Lemma normalizePass_frame (wg : nat) (b : GPU.Buffers) :
  nonNormalized (GPU.dispatch1 GPU.normalizeDensity wg b) = nonNormalized b.
Proof. apply fold_left_proj. apply normalizeDensity_frame. Qed.


Lemma nonVoxel_output (b b' : GPU.Buffers) :
  nonVoxel b' = nonVoxel b ->
  GPU.vertexBuffer b' = GPU.vertexBuffer b
  /\ GPU.triangleCountBuffer b' = GPU.triangleCountBuffer b.
Proof.
  unfold nonVoxel. intros H. injection H as _ _ _ _ Hv Ht _ _ _ _ _ _ _ _. auto.
Qed.

Lemma nonNormalized_output (b b' : GPU.Buffers) :
  nonNormalized b' = nonNormalized b ->
  GPU.vertexBuffer b' = GPU.vertexBuffer b
  /\ GPU.triangleCountBuffer b' = GPU.triangleCountBuffer b.
Proof.
  unfold nonNormalized. intros H.
  injection H as _ _ _ _ _ _ Hv Ht _ _ _ _ _ _ _ _. auto.
Qed.

(** The pipeline of [reconstruct], pass by pass. *)
Lemma submit_four (b : GPU.Buffers) (p1 p2 p3 p4 : GPU.Pass) :
  GPU.submit b [p1; p2; p3; p4]
  = GPU.runPass (GPU.runPass (GPU.runPass (GPU.runPass b p1) p2) p3) p4.
Proof. reflexivity. Qed.

(** ** Buffer writes *)

Lemma length_setAt {A : Type} (idx : nat) (v : A) (a : list A) :
  length (GPU.setAt idx v a) = length a.
Proof. revert idx. induction a as [|x t IH]; intros [|i]; cbn; auto. Qed.



Lemma Forall_setAt {A : Type} (P : A -> Prop) (idx : nat) (v : A) (a : list A) :
  P v -> Forall P a -> Forall P (GPU.setAt idx v a).
Proof.
  intros Hv. revert idx. induction a as [|x t IH]; intros [|i] Ha; cbn;
    inversion Ha; subst; constructor; auto.
Qed.

Lemma length_atomicAdd (idx : nat) (v : Z) (a : list Z) :
  length (GPU.atomicAdd idx v a) = length a.
Proof. revert idx. induction a as [|x t IH]; intros [|i]; cbn; auto. Qed.

Lemma nth_Forall_default {A : Type} (P : A -> Prop) (l : list A) (k : nat) (d : A) :
  P d -> Forall P l -> P (nth k l d).
Proof.
  intros Hd Hl. revert k. induction Hl as [|x l Hx Hl IH]; intros [|k]; cbn; auto.
Qed.

(** ** The normalize pass (C1) *)





(** ** Absent colours in the compute-shader engine *)












(** ** Evaluating the splat shader *)

Lemma fold_left_noops {A B : Type} (f : A -> B -> A) (l : list B) (a : A) :
  (forall x, In x l -> forall y, f y x = y) -> fold_left f l a = a.
Proof.
  revert a. induction l as [|x l IH]; intros a H; cbn; [reflexivity|].
  rewrite (H x) by (left; reflexivity). apply IH.
  intros x' Hx'. apply H. right. assumption.
Qed.

Lemma truncZ_IZR (z : Z) : GPU.truncZ (IZR z) = z.
Proof.
  unfold GPU.truncZ. destruct (Rltb (IZR z) 0).
  - unfold Zceil. rewrite ZfloorNZ. lia.
  - apply ZfloorZ.
Qed.

Lemma i32_of_IZR (z : Z) :
  (- 2 ^ 31 <= z <= 2 ^ 31 - 1)%Z -> GPU.i32_of_f32 (IZR z) = z.
Proof. intros Hz. unfold GPU.i32_of_f32. rewrite truncZ_IZR. lia. Qed.


(** A distance [sqrt s] exceeds the radius [r] when [s] exceeds [r^2]. *)
Lemma sqrt_above (r s : R) : 0 <= r -> r ^ 2 < s -> r < sqrt s.
Proof.
  intros Hr Hs. rewrite <- (sqrt_pow2 r) by assumption.
  apply sqrt_lt_1_alt. split; [apply pow2_ge_0|assumption].
Qed.

(** [GPU_twoPoints x1] is what [setPointCloud] and the parameter updates
    of [reconstruct] bind for the two points. *)
Lemma GPU_twoPoints_bound (x1 : R) :
  0 <= x1 ->
  GPU_bound (GPU.setPointCloud EDGE_TABLE TRI_TABLE GPU_device
               [0; 0; 0; x1; 0; 0] None 2 1)
  = GPU_twoPoints x1.
Proof.
  intros Hx.
  unfold GPU_bound, GPU.setPointCloud, GPU_device, boundingBox, GPU.updateParams,
    GPU_twoPoints, GPU.withUniforms.
  cbn -[EDGE_TABLE TRI_TABLE GPU.actualBufferSize GPU.capacity Z.pow GPU.wrap32].
  change (GPU.wrap32 1) with 1%Z. change (GPU.wrap32 2) with 2%Z.
  change (Z.to_nat (GPU.actualBufferSize 1 268435456 / 48)) with 3%nat.
  cbn [repeat].
  rewrite (Rmin_left 0 x1), (Rmax_right 0 x1), (Rmin_left 0 0), (Rmax_left 0 0) by lra.
  replace (0 - 1 * 2) with (-2) by lra.
  replace (x1 + 1 * 2) with (x1 + 2) by lra.
  replace (0 + 1 * 2) with 2 by lra.
  reflexivity.
Qed.

(** Of the 27 cells that the shader visits for the first point, only the
    middle one is a cell of the grid; the point is [x1 / 2] away from its
    centre. *)
Lemma twoPoints_splat (x1 : R) :
  0 <= x1 ->
  GPU.splatPoints (GPU_twoPoints x1) 0
  = GPU.splatCell (1, 1, 1)%Z (-2, -2, -2)
      ((x1 + 2 - -2) / 1, (2 - -2) / 1, (2 - -2) / 1) (0, 0, 0) (0.5, 0.5, 0.5) 1
      (GPU_twoPoints x1) (0, 0, 0)%Z
  /\ GPU.worldDist (-2, -2, -2) ((x1 + 2 - -2) / 1, (2 - -2) / 1, (2 - -2) / 1)
                   (0, 0, 0) (0, 0, 0)%Z = x1 / 2.
Proof.
  intros Hx. split.
  - unfold GPU.splatPoints.
    cbn [GPU_twoPoints GPU.numPointsBuffer GPU.pointsBuffer GPU.colorsBuffer
         GPU.paramsBuffer GPU.gridSizeBuffer GPU.sp_gridMin GPU.sp_gridMax
         GPU.sp_splatRadius finite3 finite Z.geb Z.compare Z.to_nat Nat.mul
         Nat.add nth].
    assert (Hfx : Zfloor ((0 - -2) / (x1 + 2 - -2) * 1) = 0%Z).
    { apply Zfloor_eq.
      assert (Hd : 2 < x1 + 2 - -2) by lra.
      assert (Hinv : 0 < / (x1 + 2 - -2)) by (apply Rinv_0_lt_compat; lra).
      assert (Hone : (x1 + 2 - -2) * / (x1 + 2 - -2) = 1) by (apply Rinv_r; lra).
      unfold Rdiv. nra. }
    assert (Hfy : Zfloor ((0 - -2) / (2 - -2) * 1) = 0%Z) by (apply Zfloor_eq; lra).
    assert (Hrc : Zceil (1 / Rmin ((x1 + 2 - -2) / 1)
                                  (Rmin ((2 - -2) / 1) ((2 - -2) / 1))) = 1%Z).
    { assert (Hm : Rmin ((2 - -2) / 1) ((2 - -2) / 1) = 4)
        by (rewrite Rmin_left; lra).
      rewrite Hm, Rmin_right by lra. apply Zceil_eq. lra. }
    rewrite Hfx, Hfy, Hrc, !i32_of_IZR by lia.
    match goal with
    | |- context [GPU.neighbourhood ?c ?r] =>
        let l := eval vm_compute in (GPU.neighbourhood c r) in
        change (GPU.neighbourhood c r) with l
    end.
    match goal with
    | |- context [fold_left ?f (?c0 :: ?c1 :: ?c2 :: ?c3 :: ?c4 :: ?c5 :: ?c6
                                  :: ?c7 :: ?c8 :: ?c9 :: ?c10 :: ?c11 :: ?c12
                                  :: ?t :: ?rest) ?b] =>
        change (fold_left f (c0 :: c1 :: c2 :: c3 :: c4 :: c5 :: c6 :: c7 :: c8
                               :: c9 :: c10 :: c11 :: c12 :: t :: rest) b)
          with (fold_left f rest
                  (f (fold_left f [c0; c1; c2; c3; c4; c5; c6; c7; c8; c9; c10;
                                   c11; c12] b) t))
    end.
    rewrite (fold_left_noops _ [_; _; _; _; _; _; _; _; _; _; _; _; _]);
      [|intros x Hx' y; cbn [In] in Hx';
        repeat (destruct Hx' as [<-|Hx']; [reflexivity|]); contradiction].
    rewrite fold_left_noops;
      [|intros x Hx' y; cbn [In] in Hx';
        repeat (destruct Hx' as [<-|Hx']; [reflexivity|]); contradiction].
    reflexivity.
  - unfold GPU.worldDist.
    replace ((0 - ((0 + 0.5) * ((x1 + 2 - -2) / 1) + -2)) ^ 2
             + (0 - ((0 + 0.5) * ((2 - -2) / 1) + -2)) ^ 2
             + (0 - ((0 + 0.5) * ((2 - -2) / 1) + -2)) ^ 2)
      with ((x1 / 2) ^ 2) by (cbn [pow]; nra).
    apply sqrt_pow2. lra.
Qed.

Lemma splatCell_inRange (gridMin cellSize pos color : vec3) (radius : R)
    (b : GPU.Buffers) :
  GPU.splatCell (1, 1, 1)%Z gridMin cellSize pos color radius b (0, 0, 0)%Z
  = let dist := GPU.worldDist gridMin cellSize pos (0, 0, 0)%Z in
    if Rltb radius dist then b
    else
      let q := GPU.u32_of_f32 (GPU.splatWeight radius dist * 1000.0) in
      if (q =? 0)%Z then b
      else
        let '(colx, coly, colz) := color in
        GPU.withVoxels b
          (GPU.atomicAdd 0 q (GPU.voxelBuffer b))
          (GPU.atomicAdd 0 (GPU.u32_of_f32 (colx * IZR q)) (GPU.voxelColorsRBuffer b))
          (GPU.atomicAdd 0 (GPU.u32_of_f32 (coly * IZR q)) (GPU.voxelColorsGBuffer b))
          (GPU.atomicAdd 0 (GPU.u32_of_f32 (colz * IZR q)) (GPU.voxelColorsBBuffer b)).
Proof. reflexivity. Qed.



(** Two points 4 apart: the first one is 2 away from the centre of the
    cell in world space, beyond the radius 1, and the shader leaves the
    buffers as they are. *)
Lemma far_splat :
  GPU.splatPoints (GPU_twoPoints 4) 0 = GPU_twoPoints 4.
Proof.
  destruct (twoPoints_splat 4 ltac:(lra)) as [Hs Hd].
  rewrite Hs, splatCell_inRange. cbv zeta. rewrite Hd.
  assert (Hr : Rltb 1 (4 / 2) = true) by (apply Rltb_true; lra).
  rewrite Hr. reflexivity.
Qed.

(** ** The host side of the pipeline *)

Lemma reconstruct_runs (m : GPU.MeshReconstructor) (b0 : GPU.Buffers) :
  GPU.initialized m = true -> GPU.buffers m = Some b0 ->
  let b1 := GPU.updateParams m b0 in
  let b := GPU.submit (GPU.withOutput b1 (GPU.vertexBuffer b1) 0) (GPU.encodePasses m) in
  GPU.buffers (fst (fst (GPU.reconstruct m))) = Some b
  /\ snd (fst (GPU.reconstruct m)) = GPU.encodePasses m
  /\ exists r, snd (GPU.reconstruct m) = Some r.
Proof.
  intros Hinit Hb. unfold GPU.reconstruct. rewrite Hinit, Hb. cbn [negb].
  destruct (_ =? 0)%Z; cbn; eauto.
Qed.


(** ** Absent colours (C3) *)




(** ** What a splat adds (C4) *)

Lemma splatWeight_formula (radius dist : R) :
  radius <> 0 ->
  GPU.splatWeight radius dist = exp (- (dist ^ 2 / (2 * (radius * 0.5) ^ 2))).
Proof.
  intros Hr. unfold GPU.splatWeight. f_equal.
  assert (Hm : -0.5 = - (1 / 2)) by lra.
  assert (Hh : 0.5 = 1 / 2) by lra.
  rewrite Hm, !Hh. field. assumption.
Qed.

(** The compute-shader half of C4: the effect of the loop body of the splat
    shader on the density accumulators, for a cell of the grid. *)
Lemma GPU_splat_adds (gx gy gz : Z) (gridMin cellSize pos color : vec3)
    (radius : R) (b : GPU.Buffers) (cx cy cz : Z) :
  ((cx <? 0) || (cx >=? GPU.wrapi32 gx) || (cy <? 0) || (cy >=? GPU.wrapi32 gy)
   || (cz <? 0) || (cz >=? GPU.wrapi32 gz))%Z = false ->
  let dist := GPU.worldDist gridMin cellSize pos (cx, cy, cz) in
  let q := GPU.u32_of_f32 (GPU.splatWeight radius dist * 1000.0) in
  let idx := Z.to_nat (GPU.voxelIndex gx gy (GPU.wrap32 cx) (GPU.wrap32 cy)
                                      (GPU.wrap32 cz)) in
  let b' := GPU.splatCell (gx, gy, gz) gridMin cellSize pos color radius b
                          (cx, cy, cz) in
  (dist > radius -> b' = b)
  /\ (dist <= radius -> q = 0%Z -> b' = b)
  /\ (dist <= radius -> q <> 0%Z ->
      GPU.voxelBuffer b' = GPU.atomicAdd idx q (GPU.voxelBuffer b))
  /\ (radius <> 0 ->
      GPU.splatWeight radius dist = exp (- (dist ^ 2 / (2 * (radius * 0.5) ^ 2)))).
Proof.
  intros Hin dist q idx b'.
  unfold b', GPU.splatCell. rewrite Hin. fold dist. fold q. fold idx.
  split; [|split; [|split]].
  - intros Hgt. apply Rltb_true in Hgt. rewrite Hgt. reflexivity.
  - intros Hle Hq. apply Rltb_false in Hle. rewrite Hle, Hq. reflexivity.
  - intros Hle Hq. apply Rltb_false in Hle. rewrite Hle.
    apply Z.eqb_neq in Hq. rewrite Hq.
    destruct color as [[colx coly] colz]. reflexivity.
  - apply splatWeight_formula.
Qed.

(** C4, as the code has it.  Sequential engine: for every point and every
    cell of the grid, at grid-space distance [dist] from the point,
    [splatPoint] adds to the density of the cell exactly
    [exp (- dist^2 / (2 sigma^2))] with [sigma = splatRadius * 0.5] when the
    cell lies in the cube of half-width [ceil splatRadius] around the cell
    that holds the point and [dist <= splatRadius]; exactly 0 when
    [dist > splatRadius]; and exactly 0 outside that cube.  Compute-shader
    engine: the loop body measures [dist] in world space, from the point to
    the world-space centre of the cell; it adds nothing when
    [dist > splatRadius], and otherwise adds the quantised weight
    [q = u32 (1000 * w)] (nothing when [q = 0]), where [w] is the same
    Gaussian of the world-space distance. *)
Theorem splat_contribution (s : CPU.CPUMarchingCubes) (positions : list R)
    (colors : option (list R)) (a : CPU.Accum) (i : nat) (nx ny nz : R)
    (ix iy iz : Z)
    (gx gy gz : Z) (gridMin cellSize pos color : vec3) (radius : R)
    (b : GPU.Buffers) (cx cy cz : Z) :
  CPU.gridCoords s positions i = (nx, ny, nz) ->
  CPU.outside (CPU.gridSize s) ix iy iz = false ->
  (CPU.getIndex (CPU.gridSize s) ix iy iz < length (CPU.a_density a))%nat ->
  ((cx <? 0) || (cx >=? GPU.wrapi32 gx) || (cy <? 0) || (cy >=? GPU.wrapi32 gy)
   || (cz <? 0) || (cz >=? GPU.wrapi32 gz))%Z = false ->
  (let k := CPU.getIndex (CPU.gridSize s) ix iy iz in
   let dist := CPU.cellDist nx ny nz ix iy iz in
   let sigma := CPU.splatRadius s * 0.5 in
   let visited := inCube (Zfloor nx) (Zfloor ny) (Zfloor nz)
                         (Zceil (CPU.splatRadius s)) ix iy iz in
   let added := nth k (CPU.a_density (CPU.splatPoint s positions colors a i)) 0
                - nth k (CPU.a_density a) 0 in
   (visited = true -> dist <= CPU.splatRadius s ->
    added = exp (- (dist ^ 2 / (2 * sigma ^ 2))))
   /\ (dist > CPU.splatRadius s -> added = 0)
   /\ (visited = false -> added = 0))
  /\ (let dist := GPU.worldDist gridMin cellSize pos (cx, cy, cz) in
      let q := GPU.u32_of_f32 (GPU.splatWeight radius dist * 1000.0) in
      let idx := Z.to_nat (GPU.voxelIndex gx gy (GPU.wrap32 cx) (GPU.wrap32 cy)
                                          (GPU.wrap32 cz)) in
      let b' := GPU.splatCell (gx, gy, gz) gridMin cellSize pos color radius b
                              (cx, cy, cz) in
      (dist > radius -> b' = b)
      /\ (dist <= radius -> q = 0%Z -> b' = b)
      /\ (dist <= radius -> q <> 0%Z ->
          GPU.voxelBuffer b' = GPU.atomicAdd idx q (GPU.voxelBuffer b))
      /\ (radius <> 0 ->
          GPU.splatWeight radius dist
          = exp (- (dist ^ 2 / (2 * (radius * 0.5) ^ 2))))).
Proof.
  intros Hcoords Hin Hk Hgpu. split.
  - apply (CPU_splat_adds s positions colors a i nx ny nz ix iy iz);
      assumption.
  - apply GPU_splat_adds. assumption.
Qed.

Lemma splat_contribution_witness :
  CPU.gridCoords CPU_example [0; 0; 0] 0 = (1.5, 1.5, 1.5)
  /\ CPU.outside (CPU.gridSize CPU_example) 1 1 1 = false
  /\ (CPU.getIndex (CPU.gridSize CPU_example) 1 1 1
      < length (CPU.a_density (CPU.emptyAccum 27)))%nat
  /\ ((0 <? 0) || (0 >=? GPU.wrapi32 1) || (0 <? 0) || (0 >=? GPU.wrapi32 1)
      || (0 <? 0) || (0 >=? GPU.wrapi32 1))%Z = false
  /\ (CPU.cellDist 1.5 1.5 1.5 1 1 1 > CPU.splatRadius CPU_example ->
      nth (CPU.getIndex (CPU.gridSize CPU_example) 1 1 1)
          (CPU.a_density (CPU.splatPoint CPU_example [0; 0; 0] None
                                         (CPU.emptyAccum 27) 0)) 0
      - nth (CPU.getIndex (CPU.gridSize CPU_example) 1 1 1)
            (CPU.a_density (CPU.emptyAccum 27)) 0 = 0).
Proof.
  assert (H1 : CPU.gridCoords CPU_example [0; 0; 0] 0 = (1.5, 1.5, 1.5))
    by exact CPU_example_coords.
  assert (H2 : CPU.outside (CPU.gridSize CPU_example) 1 1 1 = false)
    by reflexivity.
  assert (H3 : (CPU.getIndex (CPU.gridSize CPU_example) 1 1 1
                < length (CPU.a_density (CPU.emptyAccum 27)))%nat)
    by (vm_compute; lia).
  assert (H4 : ((0 <? 0) || (0 >=? GPU.wrapi32 1) || (0 <? 0) || (0 >=? GPU.wrapi32 1)
                || (0 <? 0) || (0 >=? GPU.wrapi32 1))%Z = false)
    by reflexivity.
  refine (conj H1 (conj H2 (conj H3 (conj H4 _)))).
  exact (proj1 (proj2 (proj1
           (splat_contribution CPU_example [0; 0; 0] None (CPU.emptyAccum 27) 0
              1.5 1.5 1.5 1 1 1 1 1 1 (-2, -2, -2) (8, 4, 4) (0, 0, 0)
              (0.5, 0.5, 0.5) 1 (GPU_twoPoints 4) 0 0 0 H1 H2 H3 H4)))).
Defined.

(** C4 fails in the compute-shader engine.  For the two points (0, 0, 0)
    and (4, 0, 0) on a grid of one cell with splat radius 1, the first point
    lies at grid position (0.25, 0.5, 0.5): the cell (0, 0, 0) holds it and
    its centre is 0.25 away in grid space, so that the claim has the weight
    [exp (- 0.25^2 / (2 * 0.5^2))], more than 0.875, added to the density of
    the cell.  The shader measures 2 in world space and adds nothing. *)
Lemma splat_contribution_counterexample :
  GPU_bound (GPU.setPointCloud EDGE_TABLE TRI_TABLE GPU_device
                               [0; 0; 0; 4; 0; 0] None 2 1)
  = GPU_twoPoints 4
  /\ GPU.splatPoints (GPU_twoPoints 4) 0 = GPU_twoPoints 4
  /\ GPU.voxelBuffer (GPU_twoPoints 4) = [0%Z]
  /\ (0 - -2) / (4 + 2 - -2) * IZR 1 = 0.25
  /\ CPU.cellDist 0.25 0.5 0.5 0 0 0 = 0.25
  /\ 0.25 <= 1
  /\ inCube (Zfloor 0.25) (Zfloor 0.5) (Zfloor 0.5) (Zceil 1) 0 0 0 = true
  /\ 0.875 <= exp (- (0.25 ^ 2 / (2 * (1 * 0.5) ^ 2))).
Proof.
  split; [apply GPU_twoPoints_bound; lra|].
  split; [apply far_splat|].
  split; [reflexivity|].
  split; [lra|].
  split.
  { unfold CPU.cellDist.
    replace ((0.25 - (0 + 0.5)) ^ 2 + (0.5 - (0 + 0.5)) ^ 2 + (0.5 - (0 + 0.5)) ^ 2)
      with (0.25 ^ 2) by (cbn [pow]; lra).
    apply sqrt_pow2. lra. }
  split; [lra|].
  split.
  { assert (H1 : Zfloor 0.25 = 0%Z) by (apply Zfloor_eq; lra).
    assert (H2 : Zfloor 0.5 = 0%Z) by (apply Zfloor_eq; lra).
    assert (H3 : Zceil 1 = 1%Z) by (apply Zceil_eq; lra).
    rewrite H1, H2, H3. reflexivity. }
  replace (- (0.25 ^ 2 / (2 * (1 * 0.5) ^ 2))) with (- 0.125)
    by (cbn [pow]; lra).
  pose proof (exp_ineq1_le (- 0.125)). lra.
Qed.

(** ** The march pass on an empty field *)

Lemma GPU_cubeIndex_zeros (iso : R) :
  GPU.cubeIndexOf [0; 0; 0; 0; 0; 0; 0; 0] iso = 0%Z
  \/ GPU.cubeIndexOf [0; 0; 0; 0; 0; 0; 0; 0] iso = 255%Z.
Proof.
  unfold GPU.cubeIndexOf. cbn [seq fold_left nth].
  destruct (Rltb 0 iso); [right|left]; reflexivity.
Qed.

Lemma marchingCubes_zeros (b : GPU.Buffers) (id : Z * Z * Z) :
  Forall (fun d => d = 0) (GPU.densityBuffer b) ->
  nth 0 (GPU.edgeTableBuffer b) 0%Z = 0%Z ->
  nth 255 (GPU.edgeTableBuffer b) 0%Z = 0%Z ->
  GPU.marchingCubes b id = b.
Proof.
  intros Hd H0 H255. destruct id as [[x y] z]. unfold GPU.marchingCubes.
  destruct (_ || _)%bool; [reflexivity|].
  assert (Hz : forall k, nth k (GPU.densityBuffer b) 0 = 0).
  { intros k. apply (nth_Forall_default (fun d => d = 0)); auto. }
  cbn [GPU.corners map]. rewrite !Hz.
  destruct (GPU_cubeIndex_zeros (GPU.mc_isoValue (GPU.mcParamsBuffer b))) as [->| ->].
  - change (Z.to_nat 0) with 0%nat. rewrite H0. reflexivity.
  - change (Z.to_nat 255) with 255%nat. rewrite H255. reflexivity.
Qed.

Lemma normalizedDensity_zero : GPU.normalizedDensityOf 0 = 0.
Proof.
  unfold GPU.normalizedDensityOf, GPU.rawDensityOf.
  replace (- (0 / 1000.0) * 0.5) with 0 by lra. rewrite exp_0. lra.
Qed.

Lemma Forall_repeat {A : Type} (P : A -> Prop) (x : A) (n : nat) :
  P x -> Forall P (repeat x n).
Proof.
  intros Hx. apply Forall_forall. intros y Hy. apply repeat_spec in Hy.
  subst. assumption.
Qed.

(** The four passes on cleared accumulators and no point: nothing is
    emitted, and the counter stays where it was. *)
Lemma pipeline_empty (b : GPU.Buffers) (w1 w3 wx wy wz : nat) :
  Forall (fun v => v = 0%Z) (GPU.voxelBuffer b) ->
  Forall (fun d => d = 0) (GPU.densityBuffer b) ->
  nth 0 (GPU.edgeTableBuffer b) 0%Z = 0%Z ->
  nth 255 (GPU.edgeTableBuffer b) 0%Z = 0%Z ->
  GPU.triangleCountBuffer
    (GPU.submit b [GPU.ClearPass w1; GPU.SplatPass 0; GPU.NormalizePass w3;
                   GPU.MarchPass wx wy wz])
  = GPU.triangleCountBuffer b.
Proof.
  intros Hv Hd H0 H255. rewrite submit_four. cbn [GPU.runPass].
  set (b1 := GPU.dispatch1 GPU.clearVoxel w1 b).
  assert (Hb2 : GPU.dispatch1 GPU.splatPoints 0 b1 = b1) by reflexivity.
  rewrite Hb2.
  set (b3 := GPU.dispatch1 GPU.normalizeDensity w3 b1).
  pose proof (clearPass_frame w1 b) as F1. fold b1 in F1.
  pose proof (normalizePass_frame w3 b1) as F3. fold b3 in F3.
  unfold nonVoxel in F1. unfold nonNormalized in F3.
  injection F1 as _ _ _ Hd1 _ Ht1 _ _ _ _ _ _ He1 _.
  injection F3 as _ _ _ _ _ _ _ Ht3 _ _ _ _ _ _ He3 _.
  assert (V1 : Forall (fun v => v = 0%Z) (GPU.voxelBuffer b1)).
  { apply (fold_left_preserves
             (fun x => Forall (fun v => v = 0%Z) (GPU.voxelBuffer x)));
      [assumption|].
    intros x j Hx. unfold GPU.clearVoxel. destruct (_ >=? _)%Z; [assumption|].
    cbn. apply Forall_setAt; auto. }
  assert (D3 : Forall (fun v => v = 0%Z) (GPU.voxelBuffer b3)
               /\ Forall (fun d => d = 0) (GPU.densityBuffer b3)).
  { apply (fold_left_preserves
             (fun x => Forall (fun v => v = 0%Z) (GPU.voxelBuffer x)
                       /\ Forall (fun d => d = 0) (GPU.densityBuffer x))).
    - split; [assumption|]. rewrite Hd1. assumption.
    - intros x j [Hxv Hxd]. unfold GPU.normalizeDensity.
      destruct (_ >=? _)%Z; [auto|]. cbn. split; [assumption|].
      apply Forall_setAt; [|assumption].
      rewrite (nth_Forall_default (fun v => v = 0%Z) _ _ 0%Z eq_refl Hxv).
      apply normalizedDensity_zero. }
  destruct D3 as [_ D3].
  assert (Hb4 : fold_left GPU.marchingCubes (GPU.invocations3 wx wy wz) b3 = b3).
  { apply (fold_left_preserves (fun x => x = b3)); [reflexivity|].
    intros x id ->. apply marchingCubes_zeros; [assumption| |]; congruence. }
  rewrite Hb4. congruence.
Qed.

(** ** The counter and the vertex buffer along the march pass *)

Lemma wrap32_range (z : Z) : (0 <= GPU.wrap32 z < 2 ^ 32)%Z.
Proof. unfold GPU.wrap32. apply Z.mod_pos_bound. lia. Qed.

Lemma store_shape (v0 v1 v2 nrm c0 c1 c2 : vec3) (verts : list GPU.Vertex) (n : Z) :
  length (fst (GPU.store v0 v1 v2 nrm c0 c1 c2 (verts, n))) = length verts
  /\ snd (GPU.store v0 v1 v2 nrm c0 c1 c2 (verts, n)) = GPU.wrap32 (n + 1).
Proof.
  unfold GPU.store. destruct (_ <? _)%Z; cbn [fst snd]; [|auto].
  rewrite !length_setAt. auto.
Qed.

Lemma emit_outputInv (vl cl : list vec3) (i0 i1 i2 : Z) (len : nat) (o : GPU.Output) :
  outputInv len o -> outputInv len (GPU.emit vl cl i0 i1 i2 o).
Proof.
  intros Ho. unfold GPU.emit. destruct (Rltb _ _); [assumption|].
  destruct o as [verts n]. destruct Ho as [Hlen Hn].
  match goal with
  | |- outputInv _ (GPU.store ?a ?b ?c ?d ?e ?f ?g _) =>
      pose proof (store_shape a b c d e f g verts n) as [Hl Hc]
  end.
  split; [rewrite Hl; exact Hlen|]. rewrite Hc. apply wrap32_range.
Qed.

Lemma triangleLoop_outputInv (triTable : list Z) (off : Z) (vl cl : list vec3)
    (len : nat) (steps : list Z) :
  forall o, outputInv len o ->
    outputInv len (GPU.triangleLoop triTable off vl cl steps o).
Proof.
  induction steps as [|i rest IH]; intros o Ho; cbn [GPU.triangleLoop]; [assumption|].
  destruct (_ <? 0)%Z; [assumption|]. apply IH. apply emit_outputInv. assumption.
Qed.

Lemma marchingCubes_outputInv (b : GPU.Buffers) (id : Z * Z * Z) (len : nat) :
  outputInv len (GPU.vertexBuffer b, GPU.triangleCountBuffer b) ->
  outputInv len (GPU.vertexBuffer (GPU.marchingCubes b id),
                 GPU.triangleCountBuffer (GPU.marchingCubes b id)).
Proof.
  intros Ho. unfold GPU.marchingCubes. destruct id as [[x y] z].
  destruct (_ || _)%bool; [assumption|].
  destruct (_ =? 0)%Z; [assumption|].
  match goal with
  | |- context [GPU.triangleLoop ?t ?off ?vl ?cl ?st ?o] =>
      pose proof (triangleLoop_outputInv t off vl cl len st o Ho) as H;
      destruct (GPU.triangleLoop t off vl cl st o) as [verts n]
  end.
  exact H.
Qed.

Lemma pipeline_outputInv (b : GPU.Buffers) (passes : list GPU.Pass) (len : nat) :
  outputInv len (GPU.vertexBuffer b, GPU.triangleCountBuffer b) ->
  outputInv len (GPU.vertexBuffer (GPU.submit b passes),
                 GPU.triangleCountBuffer (GPU.submit b passes)).
Proof.
  intros Ho. unfold GPU.submit.
  apply (fold_left_preserves
           (fun x => outputInv len (GPU.vertexBuffer x, GPU.triangleCountBuffer x)));
    [assumption|].
  intros x p Hx. destruct p as [wg|wg|wg|wx wy wz]; cbn [GPU.runPass].
  - destruct (nonVoxel_output _ _ (clearPass_frame wg x)) as [Hv Ht].
    rewrite Hv, Ht. assumption.
  - destruct (nonVoxel_output _ _ (splatPass_frame wg x)) as [Hv Ht].
    rewrite Hv, Ht. assumption.
  - destruct (nonNormalized_output _ _ (normalizePass_frame wg x)) as [Hv Ht].
    rewrite Hv, Ht. assumption.
  - apply (fold_left_preserves
             (fun y => outputInv len (GPU.vertexBuffer y, GPU.triangleCountBuffer y)));
      [assumption|].
    intros y id Hy. apply marchingCubes_outputInv. assumption.
Qed.

(** ** Capacity of the vertex buffer *)

Lemma min_div (x y d : Z) : (0 < d)%Z -> (Z.min x y / d = Z.min (x / d) (y / d))%Z.
Proof.
  intros Hd. destruct (Z.le_ge_cases x y) as [H|H].
  - rewrite !Z.min_l; auto. apply Z.div_le_mono; assumption.
  - rewrite !Z.min_r; auto. apply Z.div_le_mono; assumption.
Qed.

Lemma capacity_closed (N M : Z) :
  GPU.capacity N M
  = Z.min (Z.min (6 * N * N * 2 * 5) (N * N * N))
          (Z.min M (512 * 1024 * 1024) / 144).
Proof.
  unfold GPU.capacity, GPU.actualBufferSize.
  change (48 * 3)%Z with 144%Z.
  rewrite min_div by lia. f_equal.
  replace (Z.min (6 * N * N * 2 * 5) (N * N * N) * 3 * 48)%Z
    with (Z.min (6 * N * N * 2 * 5) (N * N * N) * 144)%Z by lia.
  apply Z.div_mul. lia.
Qed.

Lemma capacity_pos (N M : Z) :
  (1 <= N)%Z -> (144 <= M)%Z -> (1 <= GPU.capacity N M)%Z.
Proof.
  intros HN HM. rewrite capacity_closed.
  assert (H1 : (1 <= 6 * N * N * 2 * 5)%Z) by nia.
  assert (H2 : (1 <= N * N * N)%Z) by nia.
  assert (H3 : (1 <= Z.min M (512 * 1024 * 1024) / 144)%Z).
  { apply Z.div_le_lower_bound; lia. }
  lia.
Qed.

Lemma capacity_nonneg (N M : Z) :
  (0 <= N)%Z -> (0 <= M)%Z -> (0 <= GPU.capacity N M)%Z.
Proof.
  intros HN HM. rewrite capacity_closed.
  assert (H1 : (0 <= 6 * N * N * 2 * 5)%Z) by nia.
  assert (H2 : (0 <= N * N * N)%Z) by nia.
  assert (H3 : (0 <= Z.min M (512 * 1024 * 1024) / 144)%Z).
  { apply Z.div_pos; lia. }
  lia.
Qed.

Lemma capacity_vertices (N M : Z) :
  (GPU.capacity N M = GPU.actualBufferSize N M / 48 / 3)%Z.
Proof. unfold GPU.capacity. rewrite Z.div_div by lia. reflexivity. Qed.

(** The guard of the store: a triangle slot is written exactly when its
    index is below the number of whole triangles that the buffer holds. *)
Lemma store_guard (v0 v1 v2 nrm c0 c1 c2 : vec3) (verts : list GPU.Vertex) (n : Z) :
  (0 <= n)%Z -> (3 * n + 2 < 2 ^ 32)%Z ->
  let slots := (Z.of_nat (length verts) / 3)%Z in
  ((slots <= n)%Z ->
   GPU.store v0 v1 v2 nrm c0 c1 c2 (verts, n) = (verts, GPU.wrap32 (n + 1)))
  /\ ((n < slots)%Z ->
      GPU.store v0 v1 v2 nrm c0 c1 c2 (verts, n)
      = (GPU.setAt (Z.to_nat (3 * n + 2))
           {| GPU.position := v2; GPU.normal := nrm; GPU.color := c2 |}
           (GPU.setAt (Z.to_nat (3 * n + 1))
              {| GPU.position := v1; GPU.normal := nrm; GPU.color := c1 |}
              (GPU.setAt (Z.to_nat (3 * n))
                 {| GPU.position := v0; GPU.normal := nrm; GPU.color := c0 |}
                 verts)),
         GPU.wrap32 (n + 1))).
Proof.
  intros Hn Hw slots. unfold GPU.store.
  assert (Hb : GPU.wrap32 (n * 3) = (3 * n)%Z).
  { unfold GPU.wrap32. rewrite Z.mod_small; lia. }
  rewrite Hb.
  assert (Hb1 : GPU.wrap32 (3 * n + 1) = (3 * n + 1)%Z).
  { unfold GPU.wrap32. rewrite Z.mod_small; lia. }
  assert (Hb2 : GPU.wrap32 (3 * n + 2) = (3 * n + 2)%Z).
  { unfold GPU.wrap32. rewrite Z.mod_small; lia. }
  rewrite Hb1, Hb2.
  pose proof (Z.div_mod (Z.of_nat (length verts)) 3 ltac:(lia)) as Hdm.
  pose proof (Z.mod_pos_bound (Z.of_nat (length verts)) 3 ltac:(lia)) as Hmod.
  fold slots in Hdm.
  split; intros Hs.
  - destruct (Z.ltb_spec (3 * n + 2) (Z.of_nat (length verts))); [lia|reflexivity].
  - destruct (Z.ltb_spec (3 * n + 2) (Z.of_nat (length verts))); [reflexivity|lia].
Qed.

(** ** The result of [GPU.reconstruct] *)

Lemma length_unpack (vertexData : list R) (n offset : nat) :
  length (GPU.unpack vertexData n offset) = (3 * n)%nat.
Proof.
  unfold GPU.unpack.
  assert (H : forall start,
            length (flat_map
                      (fun i => [nth (i * 12 + offset) vertexData 0;
                                 nth (i * 12 + offset + 1) vertexData 0;
                                 nth (i * 12 + offset + 2) vertexData 0])
                      (seq start n)) = (3 * n)%nat).
  { induction n as [|n IH]; intros start; cbn [seq flat_map]; [reflexivity|].
    rewrite length_app, IH. cbn. lia. }
  apply H.
Qed.

Lemma reconstruct_result (m : GPU.MeshReconstructor) (b0 : GPU.Buffers) :
  GPU.initialized m = true -> GPU.buffers m = Some b0 ->
  let counter := GPU.triangleCountBuffer (GPU_final m b0) in
  let n := Z.min counter (GPU.orElse (GPU.maxTriangleCount m) counter) in
  exists r, snd (GPU.reconstruct m) = Some r
    /\ triangleCount r = Z.to_nat n
    /\ wellShaped r
    /\ (n = 0%Z -> r = Mesh.empty).
Proof.
  intros Hinit Hb counter n. unfold GPU.reconstruct. rewrite Hinit, Hb.
  cbn [negb]. fold (GPU_final m b0). fold counter. fold n.
  destruct (Z.eqb_spec n 0) as [Hz|Hnz]; cbn [snd].
  - eexists. split; [reflexivity|]. rewrite Hz.
    repeat split; reflexivity.
  - eexists. split; [reflexivity|]. cbn [triangleCount].
    split; [reflexivity|]. split; [|contradiction].
    assert (Hact : Z.min n (GPU.orElse (GPU.maxTriangleCount m) n) = n).
    { unfold n, GPU.orElse. destruct (GPU.maxTriangleCount m =? 0)%Z; lia. }
    rewrite Hact. unfold wellShaped. cbn [positions normals colors triangleCount].
    rewrite !length_unpack. lia.
Qed.

Lemma setPointCloud_state (EDGE_TABLE TRI_TABLE : list Z) (m : GPU.MeshReconstructor)
    (positions : list R) (colors : option (list R)) (count gridRes : nat) :
  GPU.initialized m = true ->
  let m' := GPU.setPointCloud EDGE_TABLE TRI_TABLE m positions colors count gridRes in
  GPU.initialized m' = true
  /\ GPU.numPoints m' = count
  /\ GPU.gridSize m' = (gridRes, gridRes, gridRes)
  /\ GPU.maxTriangleCount m' = GPU.capacity (Z.of_nat gridRes) (GPU.maxBufferSize m)
  /\ exists b0, GPU.buffers m' = Some b0
       /\ GPU.voxelBuffer b0 = repeat 0%Z (gridRes * gridRes * gridRes)
       /\ GPU.densityBuffer b0 = repeat 0 (gridRes * gridRes * gridRes)
       /\ GPU.edgeTableBuffer b0 = EDGE_TABLE
       /\ length (GPU.vertexBuffer b0)
          = Z.to_nat (GPU.actualBufferSize (Z.of_nat gridRes) (GPU.maxBufferSize m) / 48).
Proof.
  intros Hinit. unfold GPU.setPointCloud. rewrite Hinit. cbn [negb].
  cbv zeta. cbn. repeat split; auto.
  eexists. split; [reflexivity|]. cbn. repeat split; auto.
  apply repeat_length.
Qed.

Lemma updateParams_frame (m : GPU.MeshReconstructor) (b : GPU.Buffers) :
  GPU.voxelBuffer (GPU.updateParams m b) = GPU.voxelBuffer b
  /\ GPU.densityBuffer (GPU.updateParams m b) = GPU.densityBuffer b
  /\ GPU.edgeTableBuffer (GPU.updateParams m b) = GPU.edgeTableBuffer b
  /\ GPU.vertexBuffer (GPU.updateParams m b) = GPU.vertexBuffer b.
Proof.
  unfold GPU.updateParams. destruct (GPU.gridSize m) as [[gx gy] gz].
  repeat split; reflexivity.
Qed.

(** No march invocation runs on a grid of resolution 0. *)
Lemma counter_no_cells (m : GPU.MeshReconstructor) (b0 : GPU.Buffers) :
  GPU.gridSize m = (0, 0, 0)%nat ->
  GPU.triangleCountBuffer (GPU_final m b0) = 0%Z.
Proof.
  intros Hg. unfold GPU_final, GPU.encodePasses. rewrite Hg.
  rewrite submit_four. cbn [GPU.runPass].
  change (GPU.ceilDiv 0 4) with 0%nat.
  change (GPU.invocations3 0 0 0) with (@nil (Z * Z * Z)). cbn [fold_left].
  set (b := GPU.withOutput _ _ 0).
  set (w1 := GPU.ceilDiv (0 * 0 * 0) 64). set (w2 := GPU.ceilDiv (GPU.numPoints m) 64).
  destruct (nonVoxel_output _ _ (clearPass_frame w1 b)) as [_ Ht1].
  destruct (nonVoxel_output _ _
              (splatPass_frame w2 (GPU.dispatch1 GPU.clearVoxel w1 b))) as [_ Ht2].
  destruct (nonNormalized_output _ _
              (normalizePass_frame w1
                 (GPU.dispatch1 GPU.splatPoints w2
                    (GPU.dispatch1 GPU.clearVoxel w1 b)))) as [_ Ht3].
  rewrite Ht3, Ht2, Ht1. reflexivity.
Qed.

(** ** Shape of a result (C5) *)

(** C5. Every result of [reconstruct], in both engines, holds nine numbers
    per triangle in each of [positions], [normals] and [colors]; and the
    triangle count that the compute-shader engine returns is at most the
    capacity [maxTriangleCount] of its vertex buffer.  (The device limit
    [maxBufferSize] is at least the 144 bytes of one triangle: WebGPU
    guarantees 256 MiB.  The sequential engine grows its arrays and has no
    capacity.) *)
Theorem result_shape (EDGE_TABLE TRI_TABLE : list Z) (m : GPU.MeshReconstructor)
    (positions : list R) (colors : option (list R)) (count gridRes : nat)
    (s : CPU.CPUMarchingCubes) (positions' : list R) (colors' : option (list R))
    (count' : nat) :
  GPU.initialized m = true ->
  (144 <= GPU.maxBufferSize m)%Z ->
  let m' := GPU.setPointCloud EDGE_TABLE TRI_TABLE m positions colors count gridRes in
  (exists r, snd (GPU.reconstruct m') = Some r
     /\ length (Mesh.positions r) = (triangleCount r * 9)%nat
     /\ length (Mesh.normals r) = (triangleCount r * 9)%nat
     /\ length (Mesh.colors r) = (triangleCount r * 9)%nat
     /\ (Z.of_nat (triangleCount r) <= GPU.maxTriangleCount m')%Z)
  /\ (let r := snd (CPU.reconstruct s positions' colors' count') in
      length (Mesh.positions r) = (triangleCount r * 9)%nat
      /\ length (Mesh.normals r) = (triangleCount r * 9)%nat
      /\ length (Mesh.colors r) = (triangleCount r * 9)%nat).
Proof.
  intros Hinit Hlimit m'. split.
  - destruct (setPointCloud_state EDGE_TABLE TRI_TABLE m positions colors count
                gridRes Hinit)
      as (Hinit' & _ & Hgrid & Hcap & b0 & Hb0 & _).
    fold m' in Hinit', Hgrid, Hcap, Hb0.
    destruct (reconstruct_result m' b0 Hinit' Hb0) as (r & Hr & Hcount & Hshape & _).
    exists r. split; [assumption|].
    destruct Hshape as (Hp & Hn & Hc). repeat split; try assumption.
    rewrite Hcount. unfold GPU.orElse.
    destruct gridRes as [|N].
    + rewrite (counter_no_cells m' b0 Hgrid).
      pose proof (capacity_nonneg 0 (GPU.maxBufferSize m) ltac:(lia) ltac:(lia))
        as Hpos.
      change (Z.of_nat 0) with 0%Z in Hcap. rewrite <- Hcap in Hpos.
      destruct (_ =? 0)%Z; lia.
    + pose proof (capacity_pos (Z.of_nat (S N)) (GPU.maxBufferSize m)
                    ltac:(lia) Hlimit) as Hpos.
      rewrite <- Hcap in Hpos.
      destruct (Z.eqb_spec (GPU.maxTriangleCount m') 0) as [Hz|Hnz]; lia.
  - unfold CPU.reconstruct. cbn [snd]. apply CPU_march_lengths.
Qed.

Lemma result_shape_witness :
  GPU.initialized GPU_device = true
  /\ (144 <= GPU.maxBufferSize GPU_device)%Z
  /\ exists r,
       snd (GPU.reconstruct
              (GPU.setPointCloud EDGE_TABLE TRI_TABLE GPU_device
                                 [0; 0; 0; 4; 0; 0] None 2 1)) = Some r
       /\ length (Mesh.positions r) = (triangleCount r * 9)%nat
       /\ length (Mesh.normals r) = (triangleCount r * 9)%nat
       /\ length (Mesh.colors r) = (triangleCount r * 9)%nat
       /\ (Z.of_nat (triangleCount r)
           <= GPU.maxTriangleCount
                (GPU.setPointCloud EDGE_TABLE TRI_TABLE GPU_device
                                   [0; 0; 0; 4; 0; 0]%R None 2 1))%Z.
Proof.
  assert (H1 : GPU.initialized GPU_device = true) by reflexivity.
  assert (H2 : (144 <= GPU.maxBufferSize GPU_device)%Z) by (cbn; lia).
  refine (conj H1 (conj H2 _)).
  exact (proj1 (result_shape EDGE_TABLE TRI_TABLE GPU_device [0; 0; 0; 4; 0; 0]
                  None 2 1 CPU.initial [] None 0 H1 H2)).
Defined.

(** ** Overflow of the vertex buffer (C6) *)

(** C6, as the code has it.  The capacity [maxTriangleCount] that
    [setPointCloud] derives for the resolution [N] is
    [min (6 N N 2 5) (N^3)] triangles further limited to the whole triangles
    (144 bytes each) that fit in [min (maxBufferSize, 512 MiB)] bytes; the
    vertex buffer holds that many triangles.  A triangle whose reserved index
    is at or past the capacity is not written: the buffer is returned as it
    was, the counter still advances, and the buffer never changes its
    length.  [reconstruct] returns a result, and with a capacity other than
    0 its triangle count is [min (counter, capacity)]. *)
Theorem overflow_clamped (EDGE_TABLE TRI_TABLE : list Z) (m : GPU.MeshReconstructor)
    (positions : list R) (colors : option (list R)) (count gridRes : nat) :
  GPU.initialized m = true ->
  (0 <= GPU.maxBufferSize m)%Z ->
  let N := Z.of_nat gridRes in
  let m' := GPU.setPointCloud EDGE_TABLE TRI_TABLE m positions colors count gridRes in
  let capacity := GPU.maxTriangleCount m' in
  capacity = Z.min (Z.min (6 * N * N * 2 * 5) (N * N * N))
                   (Z.min (GPU.maxBufferSize m) (512 * 1024 * 1024) / 144)
  /\ exists b0, GPU.buffers m' = Some b0
       /\ (Z.of_nat (length (GPU.vertexBuffer b0)) / 3 = capacity)%Z
       /\ length (GPU.vertexBuffer (GPU_final m' b0)) = length (GPU.vertexBuffer b0)
       /\ (forall v0 v1 v2 nrm c0 c1 c2 vertices n,
             length vertices = length (GPU.vertexBuffer b0) ->
             (0 <= n)%Z -> (3 * n + 2 < 2 ^ 32)%Z ->
             (capacity <= n)%Z ->
             GPU.store v0 v1 v2 nrm c0 c1 c2 (vertices, n)
             = (vertices, GPU.wrap32 (n + 1)))
       /\ exists r, snd (GPU.reconstruct m') = Some r
            /\ (capacity <> 0%Z ->
                Z.of_nat (triangleCount r)
                = Z.min (GPU.triangleCountBuffer (GPU_final m' b0)) capacity).
Proof.
  intros Hinit Hlimit N m' capacity.
  destruct (setPointCloud_state EDGE_TABLE TRI_TABLE m positions colors count
              gridRes Hinit)
    as (Hinit' & _ & Hgrid & Hcap & b0 & Hb0 & _ & _ & _ & Hlen).
  fold m' in Hinit', Hgrid, Hcap, Hb0. fold capacity in Hcap. fold N in Hcap, Hlen.
  assert (Hsize : (0 <= GPU.actualBufferSize N (GPU.maxBufferSize m))%Z).
  { unfold GPU.actualBufferSize.
    assert (0 <= 6 * N * N * 2 * 5)%Z by (unfold N; nia).
    assert (0 <= N * N * N)%Z by (unfold N; nia).
    lia. }
  assert (Hslots : (Z.of_nat (length (GPU.vertexBuffer b0)) / 3 = capacity)%Z).
  { rewrite Hlen, Z2Nat.id by (apply Z.div_pos; lia).
    rewrite Hcap. symmetry. apply capacity_vertices. }
  assert (Hout : outputInv (length (GPU.vertexBuffer b0))
                   (GPU.vertexBuffer (GPU_final m' b0),
                    GPU.triangleCountBuffer (GPU_final m' b0))).
  { unfold GPU_final. apply pipeline_outputInv.
    destruct (updateParams_frame m' b0) as (_ & _ & _ & Hv).
    split; cbn; [rewrite Hv; reflexivity|lia]. }
  destruct Hout as [Hkeep Hcounter]. cbn [fst snd] in Hkeep, Hcounter.
  split; [rewrite Hcap; apply capacity_closed|].
  exists b0. split; [assumption|]. split; [assumption|]. split; [assumption|].
  split.
  - intros v0 v1 v2 nrm c0 c1 c2 vertices n Hl Hn Hw Hfull.
    apply store_guard; try assumption. rewrite Hl, Hslots. assumption.
  - destruct (reconstruct_result m' b0 Hinit' Hb0) as (r & Hr & Hcount & _).
    exists r. split; [assumption|]. intros Hnz. rewrite Hcount.
    unfold GPU.orElse. fold capacity.
    destruct (Z.eqb_spec capacity 0) as [Hz|_]; [contradiction|].
    pose proof (capacity_nonneg N (GPU.maxBufferSize m) ltac:(unfold N; lia) Hlimit).
    rewrite Z2Nat.id; lia.
Qed.

Lemma overflow_clamped_witness :
  GPU.initialized GPU_device = true
  /\ (0 <= GPU.maxBufferSize GPU_device)%Z
  /\ GPU.maxTriangleCount
       (GPU.setPointCloud EDGE_TABLE TRI_TABLE GPU_device [0; 0; 0; 4; 0; 0] None 2 1)
     = Z.min (Z.min (6 * Z.of_nat 1 * Z.of_nat 1 * 2 * 5)
                    (Z.of_nat 1 * Z.of_nat 1 * Z.of_nat 1))
             (Z.min (GPU.maxBufferSize GPU_device) (512 * 1024 * 1024) / 144).
Proof.
  assert (H1 : GPU.initialized GPU_device = true) by reflexivity.
  assert (H2 : (0 <= GPU.maxBufferSize GPU_device)%Z) by (cbn; lia).
  refine (conj H1 (conj H2 _)).
  exact (proj1 (overflow_clamped EDGE_TABLE TRI_TABLE GPU_device [0; 0; 0; 4; 0; 0]
                  None 2 1 H1 H2)).
Defined.

(** C6 fails on the capacity.  At resolution 256, on a device that allows
    buffers of 1 GiB, [min (6 N N 2 5) (N^3)] is 3932160 triangles, which
    need 566231040 bytes; the buffer is cut to 512 MiB and the capacity is
    3728270. *)
Lemma overflow_clamped_counterexample :
  GPU.maxTriangleCount
    (GPU.setPointCloud EDGE_TABLE TRI_TABLE (GPU.initial 1073741824) [] None 0 256)
  = 3728270%Z
  /\ Z.min (6 * 256 * 256 * 2 * 5) (256 * 256 * 256) = 3932160%Z
  /\ GPU.maxTriangleCount
       (GPU.setPointCloud EDGE_TABLE TRI_TABLE (GPU.initial 1073741824) [] None 0 256)
     <> Z.min (6 * 256 * 256 * 2 * 5) (256 * 256 * 256).
Proof.
  assert (H : GPU.maxTriangleCount
                (GPU.setPointCloud EDGE_TABLE TRI_TABLE (GPU.initial 1073741824)
                                   [] None 0 256)
              = 3728270%Z).
  { unfold GPU.setPointCloud.
    cbn [GPU.initial GPU.initialized negb GPU.maxTriangleCount GPU.maxBufferSize].
    vm_compute. reflexivity. }
  split; [exact H|]. split; [vm_compute; reflexivity|].
  rewrite H. vm_compute. discriminate.
Qed.

(** ** An empty cloud (C7) *)

(** C7, as the code has it.  For all parameters, [reconstruct] with no
    point returns the empty result, with [triangleCount] 0, in both engines.
    Neither returns at once: the compute-shader engine still submits its
    four passes (the splat pass with no workgroup), and the sequential
    engine still stores the box of the empty cloud, which is infinite, in the
    object before it builds and marches the field.  (The edge table of the
    shader has the entries 0 at the cube indices 0 and 255.) *)
Theorem empty_cloud (EDGE_TABLE TRI_TABLE : list Z) (m : GPU.MeshReconstructor)
    (positions : list R) (colors : option (list R)) (gridRes : nat)
    (s : CPU.CPUMarchingCubes) (positions' : list R) (colors' : option (list R)) :
  GPU.initialized m = true ->
  (0 <= GPU.maxBufferSize m)%Z ->
  nth 0 EDGE_TABLE 0%Z = 0%Z ->
  nth 255 EDGE_TABLE 0%Z = 0%Z ->
  let m' := GPU.setPointCloud EDGE_TABLE TRI_TABLE m positions colors 0 gridRes in
  snd (GPU.reconstruct m') = Some Mesh.empty
  /\ snd (fst (GPU.reconstruct m'))
     = [ GPU.ClearPass (GPU.ceilDiv (gridRes * gridRes * gridRes) 64);
         GPU.SplatPass 0;
         GPU.NormalizePass (GPU.ceilDiv (gridRes * gridRes * gridRes) 64);
         GPU.MarchPass (GPU.ceilDiv gridRes 4) (GPU.ceilDiv gridRes 4)
                       (GPU.ceilDiv gridRes 4) ]
  /\ snd (CPU.reconstruct s positions' colors' 0) = Mesh.empty
  /\ CPU.gridMin (fst (CPU.reconstruct s positions' colors' 0))
     = (PosInf, PosInf, PosInf)
  /\ CPU.gridMax (fst (CPU.reconstruct s positions' colors' 0))
     = (NegInf, NegInf, NegInf).
Proof.
  intros Hinit Hlimit H0 H255 m'.
  destruct (setPointCloud_state EDGE_TABLE TRI_TABLE m positions colors 0
              gridRes Hinit)
    as (Hinit' & Hnum & Hgrid & Hcap & b0 & Hb0 & Hvox & Hden & Hedge & _).
  fold m' in Hinit', Hnum, Hgrid, Hcap, Hb0.
  assert (Hpasses : GPU.encodePasses m'
            = [ GPU.ClearPass (GPU.ceilDiv (gridRes * gridRes * gridRes) 64);
                GPU.SplatPass 0;
                GPU.NormalizePass (GPU.ceilDiv (gridRes * gridRes * gridRes) 64);
                GPU.MarchPass (GPU.ceilDiv gridRes 4) (GPU.ceilDiv gridRes 4)
                              (GPU.ceilDiv gridRes 4) ]).
  { unfold GPU.encodePasses. rewrite Hgrid, Hnum. reflexivity. }
  destruct (reconstruct_runs m' b0 Hinit' Hb0) as (_ & Hsub & _).
  destruct (reconstruct_result m' b0 Hinit' Hb0) as (r & Hr & _ & _ & Hempty).
  assert (Hcounter : GPU.triangleCountBuffer (GPU_final m' b0) = 0%Z).
  { unfold GPU_final. rewrite Hpasses.
    destruct (updateParams_frame m' b0) as (Hv & Hd & He & _).
    rewrite pipeline_empty; [reflexivity| | | |]; cbn.
    - rewrite Hv, Hvox. apply Forall_repeat. reflexivity.
    - rewrite Hd, Hden. apply Forall_repeat. reflexivity.
    - rewrite He, Hedge. assumption.
    - rewrite He, Hedge. assumption. }
  split; [|split].
  - rewrite Hr. f_equal. apply Hempty. rewrite Hcounter.
    pose proof (capacity_nonneg (Z.of_nat gridRes) (GPU.maxBufferSize m)
                  ltac:(lia) Hlimit).
    unfold GPU.orElse. destruct (_ =? 0)%Z; lia.
  - rewrite Hsub. exact Hpasses.
  - apply CPU_reconstruct_empty.
Qed.

Lemma empty_cloud_witness :
  GPU.initialized GPU_device = true
  /\ (0 <= GPU.maxBufferSize GPU_device)%Z
  /\ nth 0 EDGE_TABLE 0%Z = 0%Z
  /\ nth 255 EDGE_TABLE 0%Z = 0%Z
  /\ snd (GPU.reconstruct
            (GPU.setPointCloud EDGE_TABLE TRI_TABLE GPU_device [] None 0 32))
     = Some Mesh.empty.
Proof.
  assert (H1 : GPU.initialized GPU_device = true) by reflexivity.
  assert (H2 : (0 <= GPU.maxBufferSize GPU_device)%Z) by (cbn; lia).
  assert (H3 : nth 0 EDGE_TABLE 0%Z = 0%Z) by reflexivity.
  assert (H4 : nth 255 EDGE_TABLE 0%Z = 0%Z) by reflexivity.
  refine (conj H1 (conj H2 (conj H3 (conj H4 _)))).
  exact (proj1 (empty_cloud EDGE_TABLE TRI_TABLE GPU_device [] None 32
                  CPU.initial [] None H1 H2 H3 H4)).
Defined.

(** C7 fails on the early return.  With no point and resolution 32 the
    compute-shader engine submits four passes, over 512, 0, 512 and
    8 x 8 x 8 workgroups; and the sequential engine replaces the box of the
    object, (-60, -60, -60) at the start, by the infinite one. *)
Lemma empty_cloud_counterexample :
  snd (fst (GPU.reconstruct
              (GPU.setPointCloud EDGE_TABLE TRI_TABLE GPU_device [] None 0 32)))
  = [GPU.ClearPass 512; GPU.SplatPass 0; GPU.NormalizePass 512; GPU.MarchPass 8 8 8]
  /\ CPU.gridMin CPU.initial = (Fin (-60), Fin (-60), Fin (-60))
  /\ CPU.gridMin (fst (CPU.reconstruct CPU.initial [] None 0))
     = (PosInf, PosInf, PosInf).
Proof.
  split; [|split; reflexivity].
  destruct (setPointCloud_state EDGE_TABLE TRI_TABLE GPU_device [] None 0 32 eq_refl)
    as (Hinit' & _ & _ & _ & b0 & Hb0 & _).
  destruct (reconstruct_runs _ b0 Hinit' Hb0) as (_ & Hsub & _).
  rewrite Hsub. reflexivity.
Qed.

(** ** Determinism of the sequential engine (C9) *)

(** C9. The mesh that the sequential [reconstruct] returns depends only on
    the points, the colours, the count and the three parameters [gridSize],
    [isoValue] and [splatRadius] of the object.  In particular a second call
    on the object that the first call leaves, with the same arguments,
    returns the same [triangleCount], [positions], [normals] and [colors],
    and leaves the object as it found it. *)
Theorem reconstruct_deterministic (s : CPU.CPUMarchingCubes) (positions : list R)
    (colors : option (list R)) (count : nat) :
  (forall s',
     CPU.gridSize s' = CPU.gridSize s ->
     CPU.isoValue s' = CPU.isoValue s ->
     CPU.splatRadius s' = CPU.splatRadius s ->
     CPU.reconstruct s' positions colors count
     = CPU.reconstruct s positions colors count)
  /\ (let first := CPU.reconstruct s positions colors count in
      let second := CPU.reconstruct (fst first) positions colors count in
      snd second = snd first /\ fst second = fst first).
Proof.
  assert (Hsame : forall s',
            CPU.gridSize s' = CPU.gridSize s ->
            CPU.isoValue s' = CPU.isoValue s ->
            CPU.splatRadius s' = CPU.splatRadius s ->
            CPU.reconstruct s' positions colors count
            = CPU.reconstruct s positions colors count).
  { intros s' Hg Hi Hr. unfold CPU.reconstruct, CPU.setBox.
    rewrite Hg, Hi, Hr. reflexivity. }
  split; [exact Hsame|].
  cbv zeta. rewrite (Hsame (fst (CPU.reconstruct s positions colors count)));
    try reflexivity.
  split; reflexivity.
Qed.

(** ** The density at the end of the pipeline *)







(** ** Final density of a voxel (C1) *)



